(** * routerman: the menu engine of [cli/actions.go]

    A shallow embedding of the action tree, the shared [Context], the
    recursive menu interpreter [RunMenuActions] and the paginated list
    screens, followed by the properties of the engine. *)

From Stdlib Require Import ZArith List Bool Lia Ascii String DecimalString.
From stdpp Require Import base option strings gmap list.
Import ListNotations.

Set Warnings "-register-all".

Local Open Scope string_scope.

(** ** Go integers

    [int] is 64 bits wide on the supported targets; [+= 1] and [-= 1]
    wrap around. *)

Definition wrap (z : Z) : Z := (z + 2 ^ 63) mod 2 ^ 64 - 2 ^ 63.

Definition int_add (a b : Z) : Z := wrap (a + b).
Definition int_sub (a b : Z) : Z := wrap (a - b).

(** [strconv.Itoa] *)
Definition Itoa (z : Z) : string := NilZero.string_of_int (Z.to_int z).

(** [len(xs)] as a Go [int] *)
Definition len {A} (xs : list A) : Z := Z.of_nat (length xs).

(** ** Errors, navigation, context (lines 14-33) *)

(** The two sentinel errors of the package are compared by identity
    ([err == ErrInvalidChoice]); every other error value, whether made by
    [fmt.Errorf] or returned by a collaborator, is an [Errorf] carrying its
    message. *)
Inductive error : Type :=
| ErrInvalidChoice
| ErrInvalidInput
| Errorf (msg : string).

Definition ExitChoice : Z := 99.
Definition QuitChoice : Z := 999.

Inductive Navigation : Type := NEXT | BACK | REPEAT.

Definition Navigation_eqb (a b : Navigation) : bool :=
  match a, b with
  | NEXT, NEXT | BACK, BACK | REPEAT, REPEAT => true
  | _, _ => false
  end.

(** [type Context map[string]int] *)
Abbreviation Context := (gmap string Z).

Definition Context_Set (key : string) (value : Z) (ctx : Context) : Context :=
  <[key := value]> ctx.

(** [_, exists := ctx[k]] *)
Definition exists_key (ctx : Context) (k : string) : bool :=
  match ctx !! k with
  | Some _ => true
  | None => false
  end.

(** [ctx[k]] read as a value: the zero value when the key is absent. *)
Definition index (ctx : Context) (k : string) : Z :=
  match ctx !! k with
  | Some v => v
  | None => 0%Z
  end.

(** [QuitProgram] (lines 1094-1097) *)
Definition QuitProgram (ctx : Context) : bool := (index ctx "quit" >? 0)%Z.

(** ** Records of the collaborators

    Only the fields that [actions.go] reads or writes are kept. *)

(** [storage.User] *)
Record User : Type := { User_Id : Z; User_Name : string }.

(** [storage.BandwidthSlot] *)
Record BandwidthSlot : Type :=
  { Slot_Id : Z; Slot_UserId : Z; Slot_RemoteId : Z }.

(** [storage.Device] *)
Record Device : Type :=
  { Device_Id : Z; Device_UserId : Z; Device_Mac : string; Device_Alias : string }.

(** [BwSlot], an available address range on the router *)
Record BwSlot : Type := { MinAddress : string; MaxAddress : string }.

(** [tplinkapi.BandwidthControlEntry] *)
Record BandwidthControlEntry : Type :=
  { Enabled : bool; StartIp : string; EndIp : string;
    UpMin : Z; UpMax : Z; DownMin : Z; DownMax : Z }.

(** one row of [tplinkapi.ClientStatistics] *)
Record ClientStatistic : Type := { Stat_IP : string; Stat_Mac : string }.

(** [tplinkapi.Client] *)
Record Client : Type := { Client_IP : string; Client_Mac : string }.

(** [tplinkapi.ClientReservation] *)
Record ClientReservation : Type :=
  { Res_Mac : string; Res_IP : string; Res_Enabled : bool }.

(** The result of a fallible call: Go's [(value, err)] pair. *)
Inductive res (A : Type) : Type :=
| Ok (a : A)
| Err (e : error).
Arguments Ok {A} a.
Arguments Err {A} e.

(** Pure helpers that live outside [actions.go]: the address arithmetic and
    the client constructor of [tplinkapi], the capacity computations of a
    [BwSlot] and the MAC-address check of the package. The engine only calls
    them, so they are taken as parameters. *)
Record Lib : Type :=
  { IsValidIPv4Address : string -> bool;
    Ip2Int : string -> res Z;
    IsValidMacAddress : string -> bool;
    GetCapacity : BwSlot -> res Z;
    GetMaxIP : BwSlot -> string -> Z -> res string;
    NewClient : string -> string -> res Client;
    IpAsInt : ClientReservation -> Z }.

(** ** The session state

    Every collaborator call and every piece of terminal traffic is recorded
    in [trace], in the order in which it happens. *)

Inductive Call : Type :=
| UserStore_Create (name : string)
| UserStore_ReadMany (pageSize pageNumber : Z)
| UserStore_Read (id : Z)
| UserStore_Delete (id : Z)
| BandwidthSlotStore_ReadManyByUserId (userId pageSize pageNumber : Z)
| BandwidthSlotStore_Read (id : Z)
| BandwidthSlotStore_Create (userId remoteId : Z)
| BandwidthSlotStore_Delete (id : Z)
| BandwidthSlotStore_DeleteByUserId (userId : Z)
| DeviceStore_Create (userId : Z) (mac alias : string)
| DeviceStore_ReadMany (pageSize pageNumber : Z)
| DeviceStore_ReadManyByUserId (userId pageSize pageNumber : Z)
| DeviceStore_ReadManyByMac (macs : list string)
| DeviceStore_Read (id : Z)
| DeviceStore_Delete (id : Z)
| DeviceStore_DeleteByUserId (userId : Z)
| Device_GetUser (userId : Z)
| Router_GetBwControlEntriesByList (ids : list Z)
| Router_GetAvailableBandwidthSlots (useDhcpBounds : bool)
| Router_GetUnusedIPAddress (remoteId : Z)
| Router_GetBlockedDevices
| Router_BlockDevice (mac : string)
| Router_UnblockDevice (mac : string)
| Service_AddBwControlEntry (entry : BandwidthControlEntry)
| Service_DeleteBwControlEntry (remoteId : Z)
| Service_GetStatistics
| Service_GetIpMacBindings
| Service_GetAddressReservations
| Service_MakeIpAddressReservation (client : Client)
| Service_DeleteIpAddressReservation (mac : string)
| PrintTable_call (rows : list (list string))
| WriteToCsv_call (filename : string) (data : list (list string)).

(** [Failed] follows the [Called] of a collaborator call that returned an
    error, [ReadFailed] the [Read] of a terminal read that did. *)
Inductive Event : Type :=
| Printed (s : string)
| Read
| ReadFailed (e : error)
| Called (c : Call)
| Failed (c : Call) (e : error).

(** What the terminal delivers to one read: a line, or a read error with
    its message. An exhausted input is the end of the stream. *)
Inductive Line : Type :=
| Text (s : string)
| Broken (msg : string).

(** Modelled from the spec: the record store of the [storage] package, which
    is not part of the sources: one ordered table per entity type. *)
Record Store : Type :=
  { UserStore : list User;
    BandwidthSlotStore : list BandwidthSlot;
    DeviceStore : list Device }.

(** Modelled from the spec: the state of the router behind the router
    control client, which is not part of the sources: its bandwidth-control
    table by remote id, the address ranges it reports as available (with and
    without DHCP bounds), the address it reports as unused within each
    bandwidth-control entry, its connection statistics, its block list, its
    IP-MAC bindings and its address reservations. *)
Record Router : Type :=
  { bw_entries : list (Z * BandwidthControlEntry);
    available_dhcp : list BwSlot;
    available_full : list BwSlot;
    unused : list (Z * string);
    statistics : list ClientStatistic;
    blocked : list string;
    bindings : list ClientReservation;
    reservations : list ClientReservation }.

Definition with_bw_entries (entries : list (Z * BandwidthControlEntry)) (r : Router)
  : Router :=
  {| bw_entries := entries; available_dhcp := available_dhcp r;
     available_full := available_full r; unused := unused r;
     statistics := statistics r; blocked := blocked r; bindings := bindings r;
     reservations := reservations r |}.

Definition with_blocked (macs : list string) (r : Router) : Router :=
  {| bw_entries := bw_entries r; available_dhcp := available_dhcp r;
     available_full := available_full r; unused := unused r;
     statistics := statistics r; blocked := macs; bindings := bindings r;
     reservations := reservations r |}.

Definition with_reservations (rs : list ClientReservation) (r : Router) : Router :=
  {| bw_entries := bw_entries r; available_dhcp := available_dhcp r;
     available_full := available_full r; unused := unused r;
     statistics := statistics r; blocked := blocked r; bindings := bindings r;
     reservations := rs |}.

(** [Env]. [faults] schedules collaborator failures: every collaborator call
    takes the head of the schedule, and fails with an error of that message,
    leaving the collaborator's data as it was, when the head holds one. *)
Record Env : Type :=
  { ctx : Context;
    stdin : list Line;
    trace : list Event;
    db : Store;
    router : Router;
    faults : list (option string) }.

Definition with_ctx (c : Context) (env : Env) : Env :=
  {| ctx := c; stdin := stdin env; trace := trace env; db := db env;
     router := router env; faults := faults env |}.

Definition with_stdin (i : list Line) (env : Env) : Env :=
  {| ctx := ctx env; stdin := i; trace := trace env; db := db env;
     router := router env; faults := faults env |}.

Definition with_db (d : Store) (env : Env) : Env :=
  {| ctx := ctx env; stdin := stdin env; trace := trace env; db := d;
     router := router env; faults := faults env |}.

Definition with_router (r : Router) (env : Env) : Env :=
  {| ctx := ctx env; stdin := stdin env; trace := trace env; db := db env;
     router := r; faults := faults env |}.

Definition with_faults (f : list (option string)) (env : Env) : Env :=
  {| ctx := ctx env; stdin := stdin env; trace := trace env; db := db env;
     router := router env; faults := f |}.

Definition emit (e : Event) (env : Env) : Env :=
  {| ctx := ctx env; stdin := stdin env; trace := trace env ++ [e];
     db := db env; router := router env; faults := faults env |}.

(** ** The monad of a function body

    A computation either yields a value, executes a [return nav, err],
    panics (an index out of range), or has not finished within the fuel
    that bounds its loops. *)

Inductive Out (A : Type) : Type :=
| Val (a : A)
| Return (nav : Navigation) (err : option error)
| Panic
| Diverge.
Arguments Val {A} a.
Arguments Return {A} nav err.
Arguments Panic {A}.
Arguments Diverge {A}.

Definition M (A : Type) : Type := Env -> Out A * Env.

Definition ret {A} (a : A) : M A := fun env => (Val a, env).

Definition bind {A B} (c : M A) (k : A -> M B) : M B :=
  fun env =>
    match c env with
    | (Val a, env') => k a env'
    | (Return nav err, env') => (Return nav err, env')
    | (Panic, env') => (Panic, env')
    | (Diverge, env') => (Diverge, env')
    end.

Definition return_ {A} (nav : Navigation) (err : option error) : M A :=
  fun env => (Return nav err, env).

(** A fallible call whose error, if any, is returned with [NEXT]. *)
Definition try_ {A B} (c : M (res A)) (k : A -> M B) : M B :=
  bind c (fun r => match r with
                   | Ok x => k x
                   | Err e => return_ NEXT (Some e)
                   end).

Definition panic {A} : M A := fun env => (Panic, env).

Definition get_ctx : M Context := fun env => (Val (ctx env), env).

Definition modify (f : Env -> Env) : M unit := fun env => (Val tt, f env).

Declare Scope go_scope.
Delimit Scope go_scope with go.
Notation "x <- c ;; k" := (bind c (fun x => k))
  (at level 100, c at next level, right associativity) : go_scope.
Notation "c ;;; k" := (bind c (fun _ => k))
  (at level 100, right associativity) : go_scope.
(** [x, err := c; if err != nil { return NEXT, err }] *)
Notation "x <-? c ;; k" := (try_ c (fun x => k))
  (at level 100, c at next level, right associativity) : go_scope.
Local Open Scope go_scope.

(** The two ways a loop body ends without returning from the function. *)
Inductive Flow (S B : Type) : Type :=
| Continue (s : S)
| Break (b : B).
Arguments Continue {S B} s.
Arguments Break {S B} b.

(** [for { body }] over the loop variables [s]. *)
Fixpoint loop {S B} (fuel : nat) (body : S -> M (Flow S B)) (s : S) : M B :=
  fun env =>
    match fuel with
    | O => (Diverge, env)
    | Datatypes.S fuel' =>
        match body s env with
        | (Val (Continue s'), env') => loop fuel' body s' env'
        | (Val (Break b), env') => (Val b, env')
        | (Return nav err, env') => (Return nav err, env')
        | (Panic, env') => (Panic, env')
        | (Diverge, env') => (Diverge, env')
        end
    end.

(** [xs[i]], panicking when [i] is out of range. *)
Definition at_index {A} (xs : list A) (i : Z) : M A :=
  if (i <? 0)%Z then panic
  else match xs !! Z.to_nat i with
       | Some x => ret x
       | None => panic
       end.

(** A function called for its [(Navigation, error)] result: the callee's
    [return] becomes a value of the caller. *)
Definition invoke (f : M Empty_set) : M (Navigation * option error) :=
  fun env =>
    match f env with
    | (Val v, _) => match v with end
    | (Return nav err, env') => (Val (nav, err), env')
    | (Panic, env') => (Panic, env')
    | (Diverge, env') => (Diverge, env')
    end.

Definition nl : string := String (ascii_of_nat 10) "".
Definition tab : string := String (ascii_of_nat 9) "".

(** [fmt.Printf] and [fmt.Println] *)
Definition Printf (s : string) : M unit := modify (emit (Printed s)).
Definition Println (s : string) : M unit := modify (emit (Printed (s +:+ nl))).

(** ** Collaborators *)

(** Modelled from the spec: the I/O failures of the collaborators
    (section 7, "collaborator failure"). The entry of the fault schedule
    that the next collaborator call takes. *)
Definition next_fault (env : Env) : option string :=
  match faults env with
  | f :: _ => f
  | [] => None
  end.

(** Modelled from the spec: the error result of a collaborator call;
    [Failed] is recorded for a result that carries one. *)
Definition settle {A} (c : Call) (r : res A) (env : Env) : Out (res A) * Env :=
  match r with
  | Ok _ => (Val r, env)
  | Err e => (Val r, emit (Failed c e) env)
  end.

(** Modelled from the spec: one call of a collaborator of section 6. It is
    recorded, takes its entry of the fault schedule, and runs on the
    collaborator's data unless the entry makes it fail. *)
Definition collab {A} (c : Call) (op : Env -> res A * Env) : M (res A) :=
  fun env =>
    let env1 := with_faults (tail (faults env)) (emit (Called c) env) in
    match next_fault env with
    | Some msg => settle c (Err (Errorf msg)) env1
    | None => let '(r, env2) := op env1 in settle c r env2
    end.

(** Modelled from the spec: what [readMany(pageSize, pageNumber)] returns
    of an ordered table, page [pageNumber] (1-based) of [pageSize] rows. *)
Definition page {A} (pageSize pageNumber : Z) (xs : list A) : list A :=
  take (Z.to_nat pageSize) (drop (Z.to_nat ((pageNumber - 1) * pageSize)) xs).

(** Modelled from the spec: the NotFound error of [read]. *)
Definition NotFound : error := Errorf "not found".

(** Modelled from the spec: the identifier that [create] gives to a new
    record, one above the largest in use. *)
Definition fresh_id (ids : list Z) : Z := (1 + fold_right Z.max 0 ids)%Z.

(** Modelled from the spec: the operations of the record store (section 6:
    [read], [readMany], [readManyByUserId], [readManyByMac], [create],
    [delete], [deleteByUserId]); the [storage] package is not part of the
    sources. *)
Module env_db.

(** Modelled from the spec: a call that reads the store. *)
Definition read_only {A} (c : Call) (f : Store -> res A) : M (res A) :=
  collab c (fun env => (f (db env), env)).

(** Modelled from the spec: a call that changes the store and returns no
    value. *)
Definition update (c : Call) (f : Store -> Store) : M (res unit) :=
  collab c (fun env => (Ok tt, with_db (f (db env)) env)).

(** Modelled from the spec: a call that adds a record and returns its
    identifier. *)
Definition create (c : Call) (f : Store -> Z * Store) : M (res Z) :=
  collab c (fun env => let '(id, s) := f (db env) in (Ok id, with_db s env)).

(** Modelled from the spec: [create] on users of the record store; the new
    record gets a fresh identifier. *)
Definition UserStore_Create (name : string) : M (res Z) :=
  create (UserStore_Create name)
    (fun s =>
       let id := fresh_id (map User_Id (UserStore s)) in
       (id,
        {| UserStore := UserStore s ++ [ {| User_Id := id; User_Name := name |} ];
           BandwidthSlotStore := BandwidthSlotStore s;
           DeviceStore := DeviceStore s |})).

(** Modelled from the spec: [readMany] on users of the record store. *)
Definition UserStore_ReadMany (pageSize pageNumber : Z) : M (res (list User)) :=
  read_only (UserStore_ReadMany pageSize pageNumber)
    (fun s => Ok (page pageSize pageNumber (UserStore s))).

(** Modelled from the spec: the lookup behind [read] on users; an absent
    identifier is NotFound. *)
Definition find_user (id : Z) (s : Store) : res User :=
  match List.find (fun u => (User_Id u =? id)%Z) (UserStore s) with
  | Some u => Ok u
  | None => Err NotFound
  end.

(** Modelled from the spec: [read] on users of the record store. *)
Definition UserStore_Read (id : Z) : M (res User) :=
  read_only (UserStore_Read id) (find_user id).

(** Modelled from the spec: [delete] on users of the record store. *)
Definition UserStore_Delete (id : Z) : M (res unit) :=
  update (UserStore_Delete id)
    (fun s => {| UserStore := List.filter (fun u => negb (User_Id u =? id)%Z) (UserStore s);
                 BandwidthSlotStore := BandwidthSlotStore s;
                 DeviceStore := DeviceStore s |}).

(** Modelled from the spec: [readManyByUserId] on bandwidth slots of the
    record store. *)
Definition BandwidthSlotStore_ReadManyByUserId (userId pageSize pageNumber : Z)
  : M (res (list BandwidthSlot)) :=
  read_only (BandwidthSlotStore_ReadManyByUserId userId pageSize pageNumber)
    (fun s => Ok (page pageSize pageNumber
                    (List.filter (fun b => (Slot_UserId b =? userId)%Z)
                       (BandwidthSlotStore s)))).

(** Modelled from the spec: the lookup behind [read] on bandwidth slots. *)
Definition find_slot (id : Z) (s : Store) : res BandwidthSlot :=
  match List.find (fun b => (Slot_Id b =? id)%Z) (BandwidthSlotStore s) with
  | Some b => Ok b
  | None => Err NotFound
  end.

(** Modelled from the spec: [read] on bandwidth slots of the record store. *)
Definition BandwidthSlotStore_Read (id : Z) : M (res BandwidthSlot) :=
  read_only (BandwidthSlotStore_Read id) (find_slot id).

(** Modelled from the spec: [create] on bandwidth slots of the record store.
    Modelled from the spec: [create] on bandwidth slots of the record store. *)
Definition BandwidthSlotStore_Create (userId remoteId : Z) : M (res unit) :=
  update (BandwidthSlotStore_Create userId remoteId)
    (fun s => {| UserStore := UserStore s;
                 BandwidthSlotStore :=
                   BandwidthSlotStore s ++
                     [ {| Slot_Id := fresh_id (map Slot_Id (BandwidthSlotStore s));
                          Slot_UserId := userId; Slot_RemoteId := remoteId |} ];
                 DeviceStore := DeviceStore s |}).

(** Modelled from the spec: [delete] on bandwidth slots of the record store.
    Modelled from the spec: [delete] on bandwidth slots of the record store. *)
Definition BandwidthSlotStore_Delete (id : Z) : M (res unit) :=
  update (BandwidthSlotStore_Delete id)
    (fun s => {| UserStore := UserStore s;
                 BandwidthSlotStore :=
                   List.filter (fun b => negb (Slot_Id b =? id)%Z)
                     (BandwidthSlotStore s);
                 DeviceStore := DeviceStore s |}).

(** Modelled from the spec: [deleteByUserId] on bandwidth slots of the
    record store. *)
Definition BandwidthSlotStore_DeleteByUserId (userId : Z) : M (res unit) :=
  update (BandwidthSlotStore_DeleteByUserId userId)
    (fun s => {| UserStore := UserStore s;
                 BandwidthSlotStore :=
                   List.filter (fun b => negb (Slot_UserId b =? userId)%Z)
                     (BandwidthSlotStore s);
                 DeviceStore := DeviceStore s |}).

(** Modelled from the spec: [readMany] on devices of the record store. *)
Definition DeviceStore_ReadMany (pageSize pageNumber : Z) : M (res (list Device)) :=
  read_only (DeviceStore_ReadMany pageSize pageNumber)
    (fun s => Ok (page pageSize pageNumber (DeviceStore s))).

(** Modelled from the spec: [readManyByUserId] on devices of the record
    store. *)
Definition DeviceStore_ReadManyByUserId (userId pageSize pageNumber : Z)
  : M (res (list Device)) :=
  read_only (DeviceStore_ReadManyByUserId userId pageSize pageNumber)
    (fun s => Ok (page pageSize pageNumber
                    (List.filter (fun d => (Device_UserId d =? userId)%Z)
                       (DeviceStore s)))).

(** Modelled from the spec: [readManyByMac] on devices of the record store. *)
Definition DeviceStore_ReadManyByMac (macs : list string) : M (res (list Device)) :=
  read_only (DeviceStore_ReadManyByMac macs)
    (fun s => Ok (List.filter
                    (fun d => existsb (String.eqb (Device_Mac d)) macs)
                    (DeviceStore s))).

(** Modelled from the spec: [create] on devices of the record store. *)
Definition DeviceStore_Create (userId : Z) (mac alias : string) : M (res Z) :=
  create (DeviceStore_Create userId mac alias)
    (fun s =>
       let id := fresh_id (map Device_Id (DeviceStore s)) in
       (id,
        {| UserStore := UserStore s;
           BandwidthSlotStore := BandwidthSlotStore s;
           DeviceStore :=
             DeviceStore s ++
               [ {| Device_Id := id; Device_UserId := userId; Device_Mac := mac;
                    Device_Alias := alias |} ] |})).

(** Modelled from the spec: [read] on devices of the record store. *)
Definition DeviceStore_Read (id : Z) : M (res Device) :=
  read_only (DeviceStore_Read id)
    (fun s => match List.find (fun d => (Device_Id d =? id)%Z) (DeviceStore s) with
              | Some d => Ok d
              | None => Err NotFound
              end).

(** Modelled from the spec: [delete] on devices of the record store. *)
Definition DeviceStore_Delete (id : Z) : M (res unit) :=
  update (DeviceStore_Delete id)
    (fun s => {| UserStore := UserStore s;
                 BandwidthSlotStore := BandwidthSlotStore s;
                 DeviceStore :=
                   List.filter (fun d => negb (Device_Id d =? id)%Z) (DeviceStore s) |}).

(** Modelled from the spec: [deleteByUserId] on devices of the record store.
    Modelled from the spec: [deleteByUserId] on devices of the record store. *)
Definition DeviceStore_DeleteByUserId (userId : Z) : M (res unit) :=
  update (DeviceStore_DeleteByUserId userId)
    (fun s => {| UserStore := UserStore s;
                 BandwidthSlotStore := BandwidthSlotStore s;
                 DeviceStore :=
                   List.filter (fun d => negb (Device_UserId d =? userId)%Z)
                     (DeviceStore s) |}).

(** Modelled from the spec: [device.GetUser(env.db.UserStore)] of the
    [storage] package, the owner of a device by a point read of the user
    table. *)
Definition Device_GetUser (device : Device) : M (res User) :=
  read_only (Device_GetUser (Device_UserId device))
    (find_user (Device_UserId device)).

End env_db.

(** Modelled from the spec: the operations of the router control client
    (section 6: [listBandwidthControlEntries], [listAvailableBandwidthSlots],
    [addBandwidthControlEntry], [deleteBandwidthControlEntry],
    [reserveAddress], [deleteReservation], [listBlockedDevices], [block],
    [unblock], [connectionStatistics], [ipMacBindings],
    [addressReservations]) and the unused-address lookup of the package's
    router wrapper, which are not part of the sources. *)
Module env_router.

(** Modelled from the spec: [listBandwidthControlEntries(ids)] of the router
    control client. *)
Definition GetBwControlEntriesByList (ids : list Z)
  : M (res (list BandwidthControlEntry)) :=
  collab (Router_GetBwControlEntriesByList ids)
    (fun env =>
       (Ok (omap (fun id =>
                    snd <$> List.find (fun p => (fst p =? id)%Z)
                              (bw_entries (router env)))
              ids),
        env)).

(** Modelled from the spec: [listAvailableBandwidthSlots(useDhcpBounds)] of
    the router control client. *)
Definition GetAvailableBandwidthSlots (useDhcpBounds : bool)
  : M (res (list BwSlot)) :=
  collab (Router_GetAvailableBandwidthSlots useDhcpBounds)
    (fun env =>
       (Ok (if useDhcpBounds then available_dhcp (router env)
            else available_full (router env)),
        env)).

(** Modelled from the spec: the unused-address lookup of the router wrapper.
    Modelled from the spec: the unused-address lookup of the router wrapper. *)
Definition GetUnusedIPAddress (remoteId : Z) : M (res string) :=
  collab (Router_GetUnusedIPAddress remoteId)
    (fun env =>
       (match List.find (fun p => (fst p =? remoteId)%Z) (unused (router env)) with
        | Some p => Ok (snd p)
        | None => Err (Errorf "no unused address")
        end,
        env)).

(** Modelled from the spec: a call that changes the router and returns no
    value. *)
Definition update (c : Call) (f : Router -> Router) : M (res unit) :=
  collab c (fun env => (Ok tt, with_router (f (router env)) env)).

(** Modelled from the spec: [block(mac)] of the router control client. *)
Definition BlockDevice (mac : string) : M (res unit) :=
  update (Router_BlockDevice mac) (fun r => with_blocked (blocked r ++ [mac]) r).

(** Modelled from the spec: [listBlockedDevices()] of the router control
    client. *)
Definition GetBlockedDevices : M (res (list string)) :=
  collab Router_GetBlockedDevices (fun env => (Ok (blocked (router env)), env)).

(** Modelled from the spec: [unblock(mac)] of the router control client. *)
Definition UnblockDevice (mac : string) : M (res unit) :=
  update (Router_UnblockDevice mac)
    (fun r =>
       with_blocked (List.filter (fun m => negb (String.eqb m mac)) (blocked r)) r).

(** Modelled from the spec: [addBandwidthControlEntry(entry)] of the router
    control client; the entry gets a fresh remote identifier. *)
Definition service_AddBwControlEntry (entry : BandwidthControlEntry)
  : M (res Z) :=
  collab (Service_AddBwControlEntry entry)
    (fun env =>
       let r := router env in
       let id := fresh_id (map fst (bw_entries r)) in
       (Ok id, with_router (with_bw_entries (bw_entries r ++ [(id, entry)]) r) env)).

(** Modelled from the spec: [deleteBandwidthControlEntry(remoteId)] of the
    router control client. *)
Definition service_DeleteBwControlEntry (remoteId : Z) : M (res unit) :=
  update (Service_DeleteBwControlEntry remoteId)
    (fun r =>
       with_bw_entries
         (List.filter (fun p => negb (fst p =? remoteId)%Z) (bw_entries r)) r).

(** Modelled from the spec: [connectionStatistics()] of the router control
    client. *)
Definition service_GetStatistics : M (res (list ClientStatistic)) :=
  collab Service_GetStatistics (fun env => (Ok (statistics (router env)), env)).

(** Modelled from the spec: [ipMacBindings()] of the router control client. *)
Definition service_GetIpMacBindings : M (res (list ClientReservation)) :=
  collab Service_GetIpMacBindings (fun env => (Ok (bindings (router env)), env)).

(** Modelled from the spec: [addressReservations()] of the router control
    client. *)
Definition service_GetAddressReservations : M (res (list ClientReservation)) :=
  collab Service_GetAddressReservations
    (fun env => (Ok (reservations (router env)), env)).

(** Modelled from the spec: [reserveAddress(client)] of the router control
    client. *)
Definition service_MakeIpAddressReservation (client : Client) : M (res unit) :=
  update (Service_MakeIpAddressReservation client)
    (fun r =>
       with_reservations
         (reservations r ++
            [ {| Res_Mac := Client_Mac client; Res_IP := Client_IP client;
                 Res_Enabled := true |} ]) r).

(** Modelled from the spec: [deleteReservation(mac)] of the router control
    client. *)
Definition service_DeleteIpAddressReservation (mac : string) : M (res unit) :=
  update (Service_DeleteIpAddressReservation mac)
    (fun r =>
       with_reservations
         (List.filter (fun b => negb (String.eqb (Res_Mac b) mac)) (reservations r)) r).

End env_router.

(** ** Terminal helpers *)

(** The error of a read at the end of the input. *)
Definition EOF : error := Errorf "EOF".

(** Modelled from the spec: [GetInput], the read-a-line primitive of the
    terminal surface (section 6), which is not part of the sources. A read
    takes the next item of the input; at the end of the input it fails. *)
Definition GetInput : M (res string) :=
  fun env =>
    let env1 := emit Read env in
    match stdin env1 with
    | [] => (Val (Err EOF), emit (ReadFailed EOF) env1)
    | Text s :: rest => (Val (Ok s), with_stdin rest env1)
    | Broken msg :: rest =>
        (Val (Err (Errorf msg)), emit (ReadFailed (Errorf msg)) (with_stdin rest env1))
    end.

(** Modelled from the spec: [PrintTable], the render-a-table primitive of the
    terminal surface (section 6), which is not part of the sources. *)
Definition PrintTable (rows : list (list string)) : M (res unit) :=
  collab (PrintTable_call rows) (fun env => (Ok tt, env)).

(** Modelled from the spec: [WriteToCsv], the write-CSV-to-named-file
    primitive of the terminal surface (section 6), which is not part of the
    sources. *)
Definition WriteToCsv (filename : string) (data : list (list string)) : M (res unit) :=
  collab (WriteToCsv_call filename data) (fun env => (Ok tt, env)).

Definition digit (c : ascii) : option Z :=
  let n := nat_of_ascii c in
  if (48 <=? n)%nat && (n <=? 57)%nat then Some (Z.of_nat (n - 48)) else None.

Fixpoint digits (s : string) (acc : Z) : option Z :=
  match s with
  | EmptyString => Some acc
  | String c rest =>
      match digit c with
      | Some d => digits rest (10 * acc + d)%Z
      | None => None
      end
  end.

(** [strconv.Atoi] on a non-empty run of decimal digits with an optional
    sign. *)
Definition Atoi (s : string) : option Z :=
  match s with
  | EmptyString => None
  | String c rest =>
      if Ascii.eqb c "-"%char then
        match rest with EmptyString => None | _ => Z.opp <$> digits rest 0 end
      else if Ascii.eqb c "+"%char then
        match rest with EmptyString => None | _ => digits rest 0 end
      else digits s 0
  end.

(** Modelled from the spec: [GetChoice], which is not part of the sources.
    By section 4.3 the token is parsed as a 1-based row index into a list
    of [max] rows, and out-of-range or non-numeric input is an
    invalid-choice condition. The result is the 0-based position. *)
Definition GetChoice (text : string) (max : Z) : res Z :=
  match Atoi text with
  | Some n => if (1 <=? n)%Z && (n <=? max)%Z then Ok (n - 1)%Z
              else Err ErrInvalidChoice
  | None => Err ErrInvalidChoice
  end.

(** Modelled from the spec: [GetChoiceInput], which is not part of the
    sources. By step 3b of section 4.2 one line is read and parsed into the
    "exit this level" sentinel (the [B] of the rendered menu), the "quit
    everything" sentinel (its [Q]) or a numeric index. *)
Definition GetChoiceInput (max : Z) : M (res Z) :=
  r <- GetInput ;;
  match r with
  | Err e => ret (Err e)
  | Ok text =>
      if String.eqb text "b" || String.eqb text "B" then ret (Ok ExitChoice)
      else if String.eqb text "q" || String.eqb text "Q" then ret (Ok QuitChoice)
      else ret (GetChoice text max)
  end.

(** Modelled from the spec: [GetCharChoice], the
    read-one-of-a-restricted-character-set primitive (section 6), which is
    not part of the sources. *)
Definition GetCharChoice (allowed : list string) : M (res string) :=
  r <- GetInput ;;
  match r with
  | Err e => ret (Err e)
  | Ok text =>
      if existsb (String.eqb text) allowed then ret (Ok text)
      else ret (Err ErrInvalidChoice)
  end.

(** Modelled from the spec: [GetIntInput], the
    read-an-integer-with-default primitive (section 6), which is not part of
    the sources. *)
Definition GetIntInput (default : Z) : M (res Z) :=
  r <- GetInput ;;
  match r with
  | Err e => ret (Err e)
  | Ok text =>
      if String.eqb text "" then ret (Ok default)
      else match Atoi text with
           | Some n => ret (Ok n)
           | None => ret (Err ErrInvalidInput)
           end
  end.

(** [strings.ToUpper] on ASCII letters *)
Definition upper (c : ascii) : ascii :=
  let n := nat_of_ascii c in
  if (97 <=? n)%nat && (n <=? 122)%nat then ascii_of_nat (n - 32) else c.

Fixpoint ToUpper (s : string) : string :=
  match s with
  | EmptyString => EmptyString
  | String c rest => String (upper c) (ToUpper rest)
  end.

(** ** The action tree (lines 35-60) *)

(** [ActionFunc]; the first argument bounds the iterations of the loops of
    the function. *)
Definition ActionFunc : Type := nat -> M Empty_set.

(** [Action]. Nodes are handled through pointers and compared by address
    ([action == ActionQuit]); [Addr] is that address. *)
Inductive Action : Type :=
  mkAction {
    Addr : positive;
    Name : string;
    Children : list Action;
    RequiresContext : list string;
    Action_ : option ActionFunc }.

(** The inner loop of [GetValidChildren]: [false] is [continue OUTER]. *)
Fixpoint keys_exist (ctx : Context) (keys : list string) : bool :=
  match keys with
  | [] => true
  | k :: rest => if exists_key ctx k then keys_exist ctx rest else false
  end.

(** The outer loop, over the children still to visit, with the slice built
    so far. *)
Fixpoint GetValidChildren_loop (ctx : Context) (children actions : list Action)
  : list Action :=
  match children with
  | [] => actions
  | action :: rest =>
      if (0 <? len (RequiresContext action))%Z then
        if keys_exist ctx (RequiresContext action)
        then GetValidChildren_loop ctx rest (actions ++ [action])
        else GetValidChildren_loop ctx rest actions
      else GetValidChildren_loop ctx rest (actions ++ [action])
  end.

Definition GetValidChildren (action : Action) (ctx : Context) : list Action :=
  GetValidChildren_loop ctx (Children action) [].

(** ** The paginated list screens

    Each screen keeps [pageNumber], [showList] and the rows of the page it
    fetched last; [pageSize] is the constant 5 in all of them. The body of
    the loop is split where the screen prompts: [_render] is the part up to
    the prompt, [_prompt] the part from the prompt on. *)

Record Pager (R : Type) : Type :=
  { pageNumber : Z; showList : bool; rows : list R }.
Arguments pageNumber {R} p.
Arguments showList {R} p.
Arguments rows {R} p.

Definition pageSize : Z := 5.

Definition first_page {R} : Pager R :=
  {| pageNumber := 1; showList := true; rows := [] |}.

Definition with_rows {R} (xs : list R) (st : Pager R) : Pager R :=
  {| pageNumber := pageNumber st; showList := showList st; rows := xs |}.

(** [pageNumber += 1; showList = true] *)
Definition next_page {R} (st : Pager R) : Pager R :=
  {| pageNumber := int_add (pageNumber st) 1; showList := true; rows := rows st |}.

(** [pageNumber -= 1; showList = true] *)
Definition previous_page {R} (st : Pager R) : Pager R :=
  {| pageNumber := int_sub (pageNumber st) 1; showList := true; rows := rows st |}.

(** [showList = false] *)
Definition hide_list {R} (st : Pager R) : Pager R :=
  {| pageNumber := pageNumber st; showList := false; rows := rows st |}.

(** [case "n"] of the four screens and of the connected-devices screen *)
Definition scroll_next {R} (st : Pager R) : Pager R :=
  if (len (rows st) =? pageSize)%Z then next_page st else hide_list st.

(** [case "p"] *)
Definition scroll_previous {R} (st : Pager R) : Pager R :=
  if (pageNumber st >? 1)%Z then previous_page st else hide_list st.

(** The position returned next to a nil error. *)
Definition position_of (r : res Z) : Z :=
  match r with
  | Ok position => position
  | Err _ => 0%Z
  end.

(** [err == ErrInvalidChoice] on the result of [GetChoice] *)
Definition is_ErrInvalidChoice (r : res Z) : bool :=
  match r with
  | Err ErrInvalidChoice => true
  | _ => false
  end.

(** [for i, x := range xs { body }] *)
Fixpoint range_from {A} (i : Z) (xs : list A) (body : Z -> A -> M unit) : M unit :=
  match xs with
  | [] => ret tt
  | x :: rest => body i x ;;; range_from (i + 1)%Z rest body
  end.

(** [for i, x := range xs { dataRows[i] = row }] where computing a row may
    call a collaborator. *)
Fixpoint range_rows {A B} (xs : list A) (row : A -> M B) : M (list B) :=
  match xs with
  | [] => ret []
  | x :: rest => r <- row x ;; rs <- range_rows rest row ;; ret (r :: rs)
  end.

Definition select_prompt (what : string) : string :=
  nl +:+ "Select " +:+ what +:+ " by number or scroll with n(ext)/p(revious)/q(uit): ".

(** The [%+v] rendering of a record, over the fields that are kept. *)
Definition User_text (user : User) : string :=
  "&{Id:" +:+ Itoa (User_Id user) +:+ " Name:" +:+ User_Name user +:+ "}".

Definition Device_text (device : Device) : string :=
  "{Id:" +:+ Itoa (Device_Id device) +:+ " UserId:" +:+ Itoa (Device_UserId device) +:+
  " Mac:" +:+ Device_Mac device +:+ " Alias:" +:+ Device_Alias device +:+ "}".

(** *** [ActionRegisterUser] (lines 70-91) *)

Definition ActionRegisterUser_Action : ActionFunc :=
  fun _ =>
    Printf "Name: " ;;;
    name <-? GetInput ;;
    if String.eqb name "" then return_ NEXT (Some ErrInvalidInput)
    else
      id <-? env_db.UserStore_Create name ;;
      Printf ("user " +:+ User_text {| User_Id := id; User_Name := name |} +:+
              " created" +:+ nl) ;;;
      return_ NEXT None.

(** *** [ActionListUsers] (lines 93-183) *)

(** lines 110-135 *)
Definition ListUsers_render (st : Pager User) : M (Pager User) :=
  if showList st then
    users <-? env_db.UserStore_ReadMany pageSize (pageNumber st) ;;
    (if (len users =? 0)%Z then
       if (pageNumber st =? 1)%Z
       then (Println "no users found" ;;; return_ REPEAT None)
       else Println "no more users found"
     else ret tt) ;;;
    let dataRows := map (fun user => [User_Name user]) users in
    _ <-? PrintTable dataRows ;;
    ret (with_rows users st)
  else
    Println "no more users found" ;;; ret st.

(** lines 137-180 *)
Definition ListUsers_prompt (st : Pager User) : M (Flow (Pager User) Empty_set) :=
  Printf (select_prompt "user") ;;;
  choice <-? GetInput ;;
  if String.eqb choice "n" then ret (Continue (scroll_next st))
  else if String.eqb choice "p" then ret (Continue (scroll_previous st))
  else if String.eqb choice "q" then return_ REPEAT None
  else
    let r := GetChoice choice (len (rows st)) in
    if is_ErrInvalidChoice r then
      Println "invalid choice. try again" ;;; ret (Continue (hide_list st))
    else
      user <- at_index (rows st) (position_of r) ;;
      let userId := User_Id user in
      Printf ("Selected user '" +:+ User_Name user +:+ "'" +:+ nl) ;;;
      _ <-? env_db.UserStore_Read userId ;;
      modify (fun env => with_ctx (Context_Set "userId" userId (ctx env)) env) ;;;
      return_ NEXT None.

Definition ListUsers_body (st : Pager User) : M (Flow (Pager User) Empty_set) :=
  st' <- ListUsers_render st ;; ListUsers_prompt st'.

Definition ActionListUsers_Action : ActionFunc :=
  fun fuel => loop fuel ListUsers_body first_page.

(** *** [ActionListUserBandwidthSlots] (lines 185-290) *)

Definition bool_text (b : bool) : string := if b then "true" else "false".

(** the [fmt.Sprintf] of lines 234-237 *)
Definition entry_row (entry : BandwidthControlEntry) : list string :=
  [ StartIp entry +:+ " - " +:+ EndIp entry +:+
    " Up:" +:+ Itoa (UpMin entry) +:+ "/" +:+ Itoa (UpMax entry) +:+
    " Down:" +:+ Itoa (DownMin entry) +:+ "/" +:+ Itoa (DownMax entry) +:+
    " [" +:+ bool_text (Enabled entry) +:+ "]" +:+ nl ].

(** lines 210-246 *)
Definition ListUserBandwidthSlots_render (userId : Z) (st : Pager BandwidthSlot)
  : M (Pager BandwidthSlot) :=
  if showList st then
    slots <-? env_db.BandwidthSlotStore_ReadManyByUserId userId pageSize (pageNumber st) ;;
    let ids := map Slot_RemoteId slots in
    entries <-? env_router.GetBwControlEntriesByList ids ;;
    if (len slots =? 0)%Z then
      Println "no slots found" ;;; return_ NEXT None
    else
      let dataRows := map entry_row entries in
      _ <-? PrintTable dataRows ;;
      ret (with_rows slots st)
  else
    Println "no more slots found" ;;; ret st.

(** lines 248-287 *)
Definition ListUserBandwidthSlots_prompt (st : Pager BandwidthSlot)
  : M (Flow (Pager BandwidthSlot) Empty_set) :=
  Printf (select_prompt "slot") ;;;
  choice <-? GetInput ;;
  if String.eqb choice "n" then ret (Continue (scroll_next st))
  else if String.eqb choice "p" then ret (Continue (scroll_previous st))
  else if String.eqb choice "q" then return_ REPEAT None
  else
    let r := GetChoice choice (len (rows st)) in
    if is_ErrInvalidChoice r then
      Println "invalid choice. try again" ;;; ret (Continue (hide_list st))
    else
      slot <- at_index (rows st) (position_of r) ;;
      let slotId := Slot_Id slot in
      _ <-? env_db.BandwidthSlotStore_Read slotId ;;
      modify (fun env => with_ctx (Context_Set "slotId" slotId (ctx env)) env) ;;;
      return_ NEXT None.

Definition ListUserBandwidthSlots_body (userId : Z) (st : Pager BandwidthSlot)
  : M (Flow (Pager BandwidthSlot) Empty_set) :=
  st' <- ListUserBandwidthSlots_render userId st ;; ListUserBandwidthSlots_prompt st'.

Definition ActionListUserBandwidthSlots_Action : ActionFunc :=
  fun fuel =>
    c <- get_ctx ;;
    if negb (exists_key c "userId") then
      return_ NEXT (Some (Errorf "user id not provided"))
    else
      let userId := index c "userId" in
      Println (nl +:+ "Listing user slots ") ;;;
      loop fuel (ListUserBandwidthSlots_body userId) first_page.

Section Behaviors.

Variable lib : Lib.

(** *** [ActionAssignSlot] (lines 292-481) *)

(** [BOUNDS_LOOP], lines 311-331: leaves the loop with [useDhcpBounds]. *)
Definition AssignSlot_bounds (_ : unit) : M (Flow unit bool) :=
  Printf "Use DHCP IP bounds (y/n): " ;;;
  r <- GetCharChoice ["y"; "n"] ;;
  match r with
  | Err ErrInvalidChoice => ret (Continue tt)
  | Err e => return_ NEXT (Some e)
  | Ok input =>
      if String.eqb input "y" then ret (Break true)
      else if String.eqb input "n" then ret (Break false)
      else Println "Invalid choice. Try again" ;;; ret (Continue tt)
  end.

(** lines 334-358 *)
Definition AssignSlot_render (useDhcpBounds : bool) (st : Pager BwSlot)
  : M (Pager BwSlot) :=
  if showList st then
    slots <-? env_router.GetAvailableBandwidthSlots useDhcpBounds ;;
    if (len slots =? 0)%Z then
      Println "no slots found" ;;;
      let nav := if (pageNumber st =? 1)%Z then BACK else NEXT in
      return_ nav None
    else
      range_from 0 slots
        (fun i slot =>
           match GetCapacity lib slot with
           | Err e => return_ NEXT (Some e)
           | Ok cap =>
               Printf (Itoa (i + 1) +:+ ": " +:+ MinAddress slot +:+ " - " +:+
                       MaxAddress slot +:+ " [" +:+ Itoa cap +:+ "]" +:+ nl)
           end) ;;;
      ret (with_rows slots st)
  else
    Println "no more slots found" ;;; ret st.

(** lines 390-423: the start address of the new entry *)
Definition AssignSlot_startIP (slot : BwSlot) : M string :=
  Printf ("Enter start IP [" +:+ MinAddress slot +:+ "]: ") ;;;
  startIPText <-? GetInput ;;
  if String.eqb startIPText "" then ret (MinAddress slot)
  else
    if negb (IsValidIPv4Address lib startIPText) then
      return_ REPEAT (Some (Errorf "invalid IPv4 address"))
    else
      startIPInt <-? ret (Ip2Int lib startIPText) ;;
      minIPInt <-? ret (Ip2Int lib (MinAddress slot)) ;;
      if (startIPInt <? minIPInt)%Z then
        Printf "Given start IP is below range. Try again" ;;;
        return_ REPEAT None
      else
        maxIPInt <-? ret (Ip2Int lib (MaxAddress slot)) ;;
        if (startIPInt >? maxIPInt)%Z then
          Printf "Given start IP is above range. Try again" ;;;
          return_ REPEAT None
        else ret startIPText.

(** lines 425-476: the rest of the form and the two writes *)
Definition AssignSlot_create (userId : Z) (slot : BwSlot) (startIP : string)
  : M (Flow (Pager BwSlot) Empty_set) :=
  let capacity := match GetCapacity lib slot with Ok c => c | Err _ => 0%Z end in
  Printf ("Enter number of devices [Default " +:+ Itoa capacity +:+ "]: ") ;;;
  num <-? GetIntInput capacity ;;
  if (num >? capacity)%Z || (num <? 1)%Z then
    return_ NEXT (Some (Errorf "invalid number"))
  else
    endIP <-? ret (GetMaxIP lib slot startIP num) ;;
    Printf ("Enter max download speed (kbps) [Default " +:+ Itoa 1000 +:+ "]: ") ;;;
    maxDown <-? GetIntInput 1000 ;;
    Printf ("Enter max upload speed (kbps) [Default " +:+ Itoa 1000 +:+ "]: ") ;;;
    maxUp <-? GetIntInput 1000 ;;
    let entry :=
      {| Enabled := true; StartIp := startIP; EndIp := endIP;
         UpMin := 50; UpMax := maxUp; DownMin := 50; DownMax := maxDown |} in
    id <-? env_router.service_AddBwControlEntry entry ;;
    _ <-? env_db.BandwidthSlotStore_Create userId id ;;
    Println "Entry created successfully" ;;;
    return_ NEXT None.

(** lines 360-477 *)
Definition AssignSlot_prompt (userId : Z) (st : Pager BwSlot)
  : M (Flow (Pager BwSlot) Empty_set) :=
  Printf (select_prompt "slot") ;;;
  choice <-? GetInput ;;
  if String.eqb choice "n" then ret (Continue (scroll_next st))
  else if String.eqb choice "p" then ret (Continue (scroll_previous st))
  else if String.eqb choice "q" then return_ NEXT None
  else
    let r := GetChoice choice (len (rows st)) in
    if is_ErrInvalidChoice r then
      return_ NEXT (Some (Errorf "invalid choice"))
    else
      slot <- at_index (rows st) (position_of r) ;;
      startIP <- AssignSlot_startIP slot ;;
      AssignSlot_create userId slot startIP.

Definition AssignSlot_body (userId : Z) (useDhcpBounds : bool) (st : Pager BwSlot)
  : M (Flow (Pager BwSlot) Empty_set) :=
  st' <- AssignSlot_render useDhcpBounds st ;; AssignSlot_prompt userId st'.

Definition ActionAssignSlot_Action : ActionFunc :=
  fun fuel =>
    c <- get_ctx ;;
    if negb (exists_key c "userId") then
      return_ NEXT (Some (Errorf "user id not provided"))
    else
      let userId := index c "userId" in
      useDhcpBounds <- loop fuel AssignSlot_bounds tt ;;
      loop fuel (AssignSlot_body userId useDhcpBounds) first_page.

(** *** [ActionDeregisterUser] (lines 483-506) *)

(** lines 496-501 *)
Fixpoint DeregisterUser_range (actions : list (Z -> M (res unit))) (userId : Z)
  : M unit :=
  match actions with
  | [] => ret tt
  | action :: rest =>
      _ <-? action userId ;;
      DeregisterUser_range rest userId
  end.

Definition ActionDeregisterUser_Action : ActionFunc :=
  fun _ =>
    c <- get_ctx ;;
    if negb (exists_key c "userId") then
      return_ NEXT (Some (Errorf "user id not provided"))
    else
      let userId := index c "userId" in
      let actions :=
        [ env_db.BandwidthSlotStore_DeleteByUserId;
          env_db.DeviceStore_DeleteByUserId;
          env_db.UserStore_Delete ] in
      DeregisterUser_range actions userId ;;;
      Println "user deleted" ;;;
      modify (fun env => with_ctx (delete "userId" (ctx env)) env) ;;;
      return_ BACK None.

(** *** [ActionDeleteSlot] (lines 508-531) *)

Definition ActionDeleteSlot_Action : ActionFunc :=
  fun _ =>
    c <- get_ctx ;;
    if negb (exists_key c "slotId") then
      return_ NEXT (Some (Errorf "slot id not provided"))
    else
      let slotId := index c "slotId" in
      slot <-? env_db.BandwidthSlotStore_Read slotId ;;
      _ <-? env_router.service_DeleteBwControlEntry (Slot_RemoteId slot) ;;
      _ <-? env_db.BandwidthSlotStore_Delete slotId ;;
      Printf "slot deleted successfully" ;;;
      return_ BACK None.

(** *** [ActionListAvailableSlots] (lines 533-554) *)

(** lines 542-548 *)
Definition available_row (slot : BwSlot) : M (list string) :=
  match GetCapacity lib slot with
  | Err e => return_ NEXT (Some e)
  | Ok cap =>
      ret [ MinAddress slot +:+ " - " +:+ MaxAddress slot +:+
            " [" +:+ Itoa cap +:+ "]" ]
  end.

Definition ActionListAvailableSlots_Action : ActionFunc :=
  fun _ =>
    slots <-? env_router.GetAvailableBandwidthSlots true ;;
    dataRows <- range_rows slots available_row ;;
    _ <-? PrintTable dataRows ;;
    return_ NEXT None.

(** *** [ActionListDevices] (lines 566-651) *)

(** lines 598-605 *)
Definition device_row (device : Device) : M (list string) :=
  r <- env_db.Device_GetUser device ;;
  let details :=
    match r with
    | Err _ => Device_Alias device
    | Ok user => Device_Alias device +:+ tab +:+ tab +:+ User_Name user
    end in
  ret [Device_Mac device; details].

(** lines 582-613 *)
Definition ListDevices_render (userId : Z) (userIdProvided : bool) (st : Pager Device)
  : M (Pager Device) :=
  if showList st then
    devices <-?
      (if userIdProvided && negb (userId =? 0)%Z
       then env_db.DeviceStore_ReadManyByUserId userId pageSize (pageNumber st)
       else env_db.DeviceStore_ReadMany pageSize (pageNumber st)) ;;
    if (len devices =? 0)%Z then
      Println "no devices found" ;;; return_ NEXT None
    else
      dataRows <- range_rows devices device_row ;;
      _ <-? PrintTable dataRows ;;
      ret (with_rows devices st)
  else
    Println "no more users found" ;;; ret st.

(** lines 615-648 *)
Definition ListDevices_prompt (st : Pager Device) : M (Flow (Pager Device) Empty_set) :=
  Printf (select_prompt "device") ;;;
  choice <-? GetInput ;;
  if String.eqb choice "n" then ret (Continue (scroll_next st))
  else if String.eqb choice "p" then ret (Continue (scroll_previous st))
  else if String.eqb choice "q" then return_ NEXT None
  else
    let r := GetChoice choice (len (rows st)) in
    if is_ErrInvalidChoice r then
      Println "invalid choice. try again" ;;; ret (Continue (hide_list st))
    else
      device <- at_index (rows st) (position_of r) ;;
      let deviceId := Device_Id device in
      modify (fun env => with_ctx (Context_Set "deviceId" deviceId (ctx env)) env) ;;;
      return_ NEXT None.

Definition ListDevices_body (userId : Z) (userIdProvided : bool) (st : Pager Device)
  : M (Flow (Pager Device) Empty_set) :=
  st' <- ListDevices_render userId userIdProvided st ;; ListDevices_prompt st'.

Definition ActionListDevices_Action : ActionFunc :=
  fun fuel =>
    c <- get_ctx ;;
    let userId := index c "userId" in
    let userIdProvided := exists_key c "userId" in
    loop fuel (ListDevices_body userId userIdProvided) first_page.

(** *** [ActionShowConnectedDevices] (lines 653-746) *)

(** lines 669-672: [make([]string, len(stats))] followed by the appends *)
Definition stat_macs (stats : list ClientStatistic) : list string :=
  replicate (length stats) "" ++ map Stat_Mac stats.

(** lines 679-682 *)
Definition device_map (devices : list Device) : gmap string Device :=
  fold_left (fun m device => <[Device_Mac device := device]> m) devices ∅.

(** lines 697-707 *)
Definition stat_row (deviceMap : gmap string Device) (stat : ClientStatistic)
  : M (list string) :=
  match deviceMap !! Stat_Mac stat with
  | Some device =>
      r <- env_db.Device_GetUser device ;;
      let details :=
        match r with
        | Err _ => Device_Alias device
        | Ok user => Device_Alias device +:+ tab +:+ tab +:+ User_Name user
        end in
      ret [Stat_IP stat; Stat_Mac stat; details]
  | None => ret [Stat_IP stat; Stat_Mac stat; "Unknown"]
  end.

(** lines 685-715. The [err] of line 689 is nil whenever the line is
    reached: it was last assigned by [ReadManyByMac] or [PrintTable], and a
    non-nil value there has already returned. *)
Definition ShowConnectedDevices_render (deviceMap : gmap string Device)
    (st : Pager ClientStatistic) : M (Pager ClientStatistic) :=
  if showList st then
    (if (len (rows st) =? 0)%Z then
       if (pageNumber st =? 1)%Z
       then (Println "No connected devices" ;;; return_ NEXT None)
       else Println "No more devices found"
     else ret tt) ;;;
    dataRows <- range_rows (rows st) (stat_row deviceMap) ;;
    _ <-? PrintTable dataRows ;;
    ret st
  else
    Println "No more devices found" ;;; ret st.

(** lines 717-743 *)
Definition ShowConnectedDevices_prompt (st : Pager ClientStatistic)
  : M (Flow (Pager ClientStatistic) Empty_set) :=
  Printf (nl +:+ "Scroll with n(ext)/p(revious)/q(uit): ") ;;;
  choice <-? GetInput ;;
  if String.eqb choice "n" then ret (Continue (scroll_next st))
  else if String.eqb choice "p" then ret (Continue (scroll_previous st))
  else if String.eqb choice "q" then return_ NEXT None
  else Println "Invalid input" ;;; ret (Continue st).

Definition ShowConnectedDevices_body (deviceMap : gmap string Device)
    (st : Pager ClientStatistic) : M (Flow (Pager ClientStatistic) Empty_set) :=
  st' <- ShowConnectedDevices_render deviceMap st ;; ShowConnectedDevices_prompt st'.

Definition ActionShowConnectedDevices_Action : ActionFunc :=
  fun fuel =>
    stats <-? env_router.service_GetStatistics ;;
    let macAddresses := stat_macs stats in
    devices <-? env_db.DeviceStore_ReadManyByMac macAddresses ;;
    let deviceMap := device_map devices in
    loop fuel (ShowConnectedDevices_body deviceMap) (with_rows stats first_page).

(** *** [ExportBindings] (lines 1099-1123) *)

(** [sort.Slice] by the address as an integer. The order it gives to rows
    with equal keys is not fixed by Go; an insertion sort that keeps them in
    their order stands for it. *)
Fixpoint insert_by (key : ClientReservation -> Z) (b : ClientReservation)
    (sorted : list ClientReservation) : list ClientReservation :=
  match sorted with
  | [] => [b]
  | x :: rest =>
      if (key x <=? key b)%Z then x :: insert_by key b rest else b :: sorted
  end.

Definition sort_by (key : ClientReservation -> Z) (l : list ClientReservation)
  : list ClientReservation :=
  fold_left (fun sorted b => insert_by key b sorted) l [].

Definition csv_row (binding : ClientReservation) : list string :=
  let enabled := if Res_Enabled binding then "y" else "n" in
  [Res_Mac binding; Res_IP binding; enabled].

Definition ExportBindings (bindings : list ClientReservation) (filename : string)
  : M (res unit) :=
  let bindings := sort_by (IpAsInt lib) bindings in
  let headers := ["Mac"; "IP"; "Enabled"] in
  let csvData := headers :: map csv_row bindings in
  r <- WriteToCsv filename csvData ;;
  match r with
  | Err e => ret (Err e)
  | Ok _ => Printf ("saved to '" +:+ filename +:+ "'" +:+ nl) ;;; ret (Ok tt)
  end.

(** *** [ActionExportARPBindings] (lines 748-769) *)

Definition ActionExportARPBindings_Action : ActionFunc :=
  fun _ =>
    bindings <-? env_router.service_GetIpMacBindings ;;
    if (len bindings =? 0)%Z then
      Println "No bindings found" ;;; return_ NEXT None
    else
      _ <-? ExportBindings bindings "bindings.csv" ;;
      return_ NEXT None.

(** *** [ActionExportDhcpAddressReservations] (lines 771-792) *)

Definition ActionExportDhcpAddressReservations_Action : ActionFunc :=
  fun _ =>
    reservations <-? env_router.service_GetAddressReservations ;;
    if (len reservations =? 0)%Z then
      Println "No reservations found" ;;; return_ NEXT None
    else
      _ <-? ExportBindings reservations "reservations.csv" ;;
      return_ NEXT None.

(** *** [ActionRegisterDevice] (lines 794-881) *)

(** lines 818-878 *)
Definition RegisterDevice_body (userId : Z) (slot : BandwidthSlot) (_ : unit)
  : M (Flow unit unit) :=
  Printf "Enter mac address: " ;;;
  text <-? GetInput ;;
  if negb (IsValidMacAddress lib text) then
    Println "Invalid mac address. Try again" ;;; ret (Continue tt)
  else
    let mac := text in
    Printf "Enter alias: " ;;;
    text <-? GetInput ;;
    ipAddress <-? env_router.GetUnusedIPAddress (Slot_RemoteId slot) ;;
    client <-? ret (NewClient lib ipAddress mac) ;;
    _ <-? env_router.service_MakeIpAddressReservation client ;;
    Printf ("device assigned ip '" +:+ Client_IP client +:+ "'" +:+ nl) ;;;
    let alias := text in
    existingDevices <-? env_db.DeviceStore_ReadManyByMac [Client_Mac client] ;;
    if (len existingDevices =? 0)%Z then
      id <-? env_db.DeviceStore_Create userId (Client_Mac client) alias ;;
      Printf ("Device added successfully " +:+
              Device_text {| Device_Id := id; Device_UserId := userId;
                             Device_Mac := Client_Mac client;
                             Device_Alias := alias |} +:+ nl) ;;;
      ret (Break tt)
    else
      Println "Device already registered" ;;; ret (Break tt).

Definition ActionRegisterDevice_Action : ActionFunc :=
  fun fuel =>
    c <- get_ctx ;;
    if negb (exists_key c "userId") then
      return_ NEXT (Some (Errorf "user id not provided"))
    else
      let userId := index c "userId" in
      if negb (exists_key c "slotId") then
        return_ NEXT (Some (Errorf "slot id not provided"))
      else
        let slotId := index c "slotId" in
        slot <-? env_db.BandwidthSlotStore_Read slotId ;;
        _ <-? env_db.UserStore_Read userId ;;
        loop fuel (RegisterDevice_body userId slot) tt ;;;
        return_ NEXT None.

(** *** [ActionDeregisterDevice] (lines 883-911) *)

Definition ActionDeregisterDevice_Action : ActionFunc :=
  fun _ =>
    c <- get_ctx ;;
    if negb (exists_key c "deviceId") then
      return_ NEXT (Some (Errorf "device id not provided"))
    else
      let deviceId := index c "deviceId" in
      device <-? env_db.DeviceStore_Read deviceId ;;
      _ <-? env_router.service_DeleteIpAddressReservation (Device_Mac device) ;;
      _ <-? env_db.DeviceStore_Delete deviceId ;;
      Println "Device deregistered" ;;;
      modify (fun env => with_ctx (delete "deviceId" (ctx env)) env) ;;;
      return_ BACK None.

(** *** [ActionBlockDevice] (lines 958-975) *)

Definition ActionBlockDevice_Action : ActionFunc :=
  fun _ =>
    Printf "Enter devic mac address: " ;;;
    r <- GetInput ;;
    match r with
    | Err _ => return_ NEXT None
    | Ok mac =>
        let mac := ToUpper mac in
        if negb (IsValidMacAddress lib mac) then
          Println "invalid mac address" ;;; return_ NEXT None
        else
          _ <-? env_router.BlockDevice mac ;;
          return_ NEXT None
    end.

(** *** [ActionListBlockedDevices] (lines 923-956) *)

(** lines 944-951 *)
Definition blocked_row (device : Device) : M (list string) :=
  r <- env_db.Device_GetUser device ;;
  let details :=
    match r with
    | Err _ => Device_Alias device
    | Ok user => Device_Alias device +:+ tab +:+ tab +:+ User_Name user
    end in
  ret [Device_Alias device; Device_Mac device; details].

Definition ActionListBlockedDevices_Action : ActionFunc :=
  fun _ =>
    addresses <-? env_router.GetBlockedDevices ;;
    if (len addresses =? 0)%Z then
      Println "no blocked devices found" ;;; return_ NEXT None
    else
      devices <-? env_db.DeviceStore_ReadManyByMac addresses ;;
      Println "Blocked devices:" ;;;
      dataRows <- range_rows devices blocked_row ;;
      _ <-? PrintTable dataRows ;;
      return_ NEXT None.

(** *** [ActionUnblockDevice] (lines 977-999) *)

Definition ActionUnblockDevice_Action : ActionFunc :=
  fun _ =>
    Printf "Enter devic mac address: " ;;;
    r <- GetInput ;;
    match r with
    | Err _ => return_ NEXT None
    | Ok mac =>
        let mac := ToUpper mac in
        if negb (IsValidMacAddress lib mac) then
          Println "invalid mac address" ;;; return_ NEXT None
        else
          _ <-? env_router.UnblockDevice mac ;;
          Printf ("device '" +:+ mac +:+ "' unblocked") ;;;
          return_ NEXT None
    end.

(** *** The nodes

    [Addr] numbers the node variables in the order of their declaration
    in [actions.go]; the Quit node is number 1. A node shared by two parents
    is the same value under both. *)

Definition ActionRegisterUser : Action :=
  {| Addr := 3; Name := "Register a user"; Children := [];
     RequiresContext := []; Action_ := Some ActionRegisterUser_Action |}.

Definition ActionAssignSlot : Action :=
  {| Addr := 6; Name := "Assign bandwidth slot"; Children := [];
     RequiresContext := ["userId"]; Action_ := Some ActionAssignSlot_Action |}.

Definition ActionDeregisterUser : Action :=
  {| Addr := 7; Name := "Deregister user"; Children := [];
     RequiresContext := ["userId"]; Action_ := Some ActionDeregisterUser_Action |}.

Definition ActionDeleteSlot : Action :=
  {| Addr := 8; Name := "Delete slot"; Children := [];
     RequiresContext := ["slotId"]; Action_ := Some ActionDeleteSlot_Action |}.


Definition ActionRegisterDevice : Action :=
  {| Addr := 15; Name := "Register a device"; Children := [];
     RequiresContext := ["userId"; "slotId"];
     Action_ := Some ActionRegisterDevice_Action |}.

Definition ActionDeregisterDevice : Action :=
  {| Addr := 16; Name := "Deregister device"; Children := [];
     RequiresContext := ["deviceId"]; Action_ := Some ActionDeregisterDevice_Action |}.

Definition ActionListUserBandwidthSlots : Action :=
  {| Addr := 5; Name := "List user bandwidth slots";
     Children := [ActionRegisterDevice; ActionAssignSlot; ActionDeleteSlot];
     RequiresContext := ["userId"];
     Action_ := Some ActionListUserBandwidthSlots_Action |}.

Definition ActionListDevices : Action :=
  {| Addr := 11; Name := "List devices"; Children := [ActionDeregisterDevice];
     RequiresContext := []; Action_ := Some ActionListDevices_Action |}.

Definition ActionListUsers : Action :=
  {| Addr := 4; Name := "List users";
     Children := [ActionListUserBandwidthSlots; ActionDeregisterUser; ActionListDevices];
     RequiresContext := []; Action_ := Some ActionListUsers_Action |}.

Definition RootActionManageUsers : Action :=
  {| Addr := 2; Name := "Manage users";
     Children := [ActionRegisterUser; ActionListUsers];
     RequiresContext := []; Action_ := None |}.






Definition ActionBlockDevice : Action :=
  {| Addr := 19; Name := "Block device"; Children := [];
     RequiresContext := []; Action_ := Some ActionBlockDevice_Action |}.



End Behaviors.

(** *** [ActionQuit] (lines 1001-1006) *)

Definition ActionQuit : Action :=
  {| Addr := 1; Name := "Quit"; Children := []; RequiresContext := [];
     Action_ := Some (fun _ => return_ NEXT None) |}.

(** [action == ActionQuit] *)
Definition is_ActionQuit (action : Action) : bool :=
  Pos.eqb (Addr action) (Addr ActionQuit).

(** ** The menu interpreter, [RunMenuActions] (lines 1008-1092) *)

(** lines 1018-1027: the option text built so far and [containsQuit] *)
Fixpoint options_range (i : Z) (actions : list Action) (acc : string * bool)
  : string * bool :=
  match actions with
  | [] => acc
  | action :: rest =>
      let '(options, containsQuit) := acc in
      let id := Itoa (i + 1) in
      let '(id, containsQuit) :=
        if is_ActionQuit action then ("Q", true) else (id, containsQuit) in
      options_range (i + 1)%Z rest
        (options +:+ id +:+ ": " +:+ Name action +:+ nl, containsQuit)
  end.

(** lines 1013-1031 *)
Definition menu_options (actions : list Action) : string :=
  let '(options, containsQuit) := options_range 0 actions ("", false) in
  if negb containsQuit then options +:+ "B: Back" +:+ nl +:+ "Q: Quit" +:+ nl
  else options.

(** [fmt.Printf("%v", err)] *)
Definition error_text (e : error) : string :=
  match e with
  | ErrInvalidChoice => "invalid choice"
  | ErrInvalidInput => "invalid input"
  | Errorf msg => msg
  end.

Definition set_quit : M unit :=
  modify (fun env => with_ctx (Context_Set "quit" 1 (ctx env)) env).

(** lines 1075-1089: the descent into the valid children of the chosen
    node; [run] is the recursive call. *)
Definition menu_descend (run : list Action -> M Empty_set) (action : Action)
  : M (Flow unit unit) :=
  c <- get_ctx ;;
  let children := GetValidChildren action c in
  if (len children >? 0)%Z then
    r <- invoke (run children) ;;
    let '(navigation, err) := r in
    c' <- get_ctx ;;
    if QuitProgram c' then ret (Break tt)
    else
      match err with
      | Some e => return_ NEXT (Some e)
      | None =>
          if Navigation_eqb navigation BACK then ret (Break tt)
          else ret (Continue tt)
      end
  else ret (Continue tt).

(** lines 1034-1089: one iteration of the menu loop *)
Definition menu_body (run : list Action -> M Empty_set) (fuel : nat)
    (options : string) (actions : list Action) (_ : unit) : M (Flow unit unit) :=
  Printf (nl +:+ "Choose an action: " +:+ nl +:+ options +:+ nl +:+ nl +:+ "Choice: ") ;;;
  r <- GetChoiceInput (len actions) ;;
  match r with
  | Err ErrInvalidChoice =>
      Printf (error_text ErrInvalidChoice +:+ ", try again" +:+ nl) ;;;
      ret (Continue tt)
  | Err ErrInvalidInput =>
      Printf (error_text ErrInvalidInput +:+ ", try again" +:+ nl) ;;;
      ret (Continue tt)
  | Err e => return_ NEXT (Some e)
  | Ok choice =>
      if (choice =? ExitChoice)%Z then ret (Break tt)
      else if (choice =? QuitChoice)%Z then set_quit ;;; ret (Break tt)
      else
        action <- at_index actions choice ;;
        if is_ActionQuit action then set_quit ;;; ret (Break tt)
        else
          match Action_ action with
          | Some f =>
              r <- invoke (f fuel) ;;
              let '(navigation, err) := r in
              match err with
              | Some e => return_ NEXT (Some e)
              | None =>
                  match navigation with
                  | BACK => ret (Break tt)
                  | REPEAT => ret (Continue tt)
                  | NEXT => menu_descend run action
                  end
              end
          | None => menu_descend run action
          end
  end.

(** [fuel] bounds the depth of the recursion, the iterations of every menu
    loop and the iterations of the loops of the behaviors. *)
Fixpoint RunMenuActions (fuel : nat) (actions : list Action) : M Empty_set :=
  c <- get_ctx ;;
  if QuitProgram c then return_ BACK None
  else
    let options := menu_options actions in
    let run children :=
      match fuel with
      | O => fun env => (Diverge, env)
      | S fuel' => RunMenuActions fuel' children
      end in
    loop fuel (menu_body run fuel options actions) tt ;;;
    return_ NEXT None.

(** The recursive call of a frame that runs with [fuel]. *)
Definition nested (fuel : nat) (children : list Action) : M Empty_set :=
  match fuel with
  | O => fun env => (Diverge, env)
  | S fuel' => RunMenuActions fuel' children
  end.

(** The text of the menu prompt (line 1034). *)
Definition menu_prompt (actions : list Action) : string :=
  nl +:+ "Choose an action: " +:+ nl +:+ menu_options actions +:+ nl +:+ nl +:+ "Choice: ".

(** ** A sample installation

    An instance of the helper library and a small router and store, used to
    run the engine on concrete sessions. *)

Module Sample.

Fixpoint split_dots (s cur : string) : list string :=
  match s with
  | EmptyString => [cur]
  | String c rest =>
      if Ascii.eqb c "."%char then cur :: split_dots rest ""
      else split_dots rest (cur +:+ String c "")
  end.

Definition octet (s : string) : option Z :=
  match s with
  | EmptyString => None
  | _ => match digits s 0 with
         | Some n => if (n <=? 255)%Z then Some n else None
         | None => None
         end
  end.

Definition ip2int (s : string) : option Z :=
  match map octet (split_dots s "") with
  | [Some a; Some b; Some c; Some d] =>
      Some (((a * 256 + b) * 256 + c) * 256 + d)%Z
  | _ => None
  end.

Definition int2ip (n : Z) : string :=
  Itoa (n / 16777216 mod 256) +:+ "." +:+ Itoa (n / 65536 mod 256) +:+ "." +:+
  Itoa (n / 256 mod 256) +:+ "." +:+ Itoa (n mod 256).

Definition is_hex (c : ascii) : bool :=
  let n := nat_of_ascii c in
  ((48 <=? n) && (n <=? 57) || (65 <=? n) && (n <=? 70) || (97 <=? n) && (n <=? 102))%nat.

Fixpoint is_mac_from (groups : nat) (s : string) : bool :=
  match s with
  | String a (String b rest) =>
      is_hex a && is_hex b &&
      match groups, rest with
      | O, EmptyString => true
      | S groups', String c rest' => Ascii.eqb c ":"%char && is_mac_from groups' rest'
      | _, _ => false
      end
  | _ => false
  end.

Definition to_res (o : option Z) : res Z :=
  match o with
  | Some n => Ok n
  | None => Err (Errorf "invalid IPv4 address")
  end.

Definition capacity (slot : BwSlot) : res Z :=
  match ip2int (MinAddress slot), ip2int (MaxAddress slot) with
  | Some lo, Some hi => Ok (hi - lo + 1)%Z
  | _, _ => Err (Errorf "invalid IPv4 address")
  end.

Definition max_ip (slot : BwSlot) (startIP : string) (num : Z) : res string :=
  match ip2int startIP with
  | Some lo => Ok (int2ip (lo + num - 1))
  | None => Err (Errorf "invalid IPv4 address")
  end.

Definition new_client (ip mac : string) : res Client :=
  match ip2int ip with
  | Some _ =>
      if is_mac_from 5 mac then Ok {| Client_IP := ip; Client_Mac := ToUpper mac |}
      else Err (Errorf "invalid mac address")
  | None => Err (Errorf "invalid IPv4 address")
  end.

Definition lib : Lib :=
  {| IsValidIPv4Address := fun s => match ip2int s with Some _ => true | None => false end;
     Ip2Int := fun s => to_res (ip2int s);
     IsValidMacAddress := is_mac_from 5;
     GetCapacity := capacity;
     GetMaxIP := max_ip;
     NewClient := new_client;
     IpAsInt := fun b => match ip2int (Res_IP b) with Some n => n | None => 0%Z end |}.

Definition user (id : Z) (name : string) : User :=
  {| User_Id := id; User_Name := name |}.

Definition slot (id userId remoteId : Z) : BandwidthSlot :=
  {| Slot_Id := id; Slot_UserId := userId; Slot_RemoteId := remoteId |}.

Definition device (id userId : Z) (mac alias : string) : Device :=
  {| Device_Id := id; Device_UserId := userId; Device_Mac := mac; Device_Alias := alias |}.

Definition entry (startIp endIp : string) : BandwidthControlEntry :=
  {| Enabled := true; StartIp := startIp; EndIp := endIp;
     UpMin := 50; UpMax := 1000; DownMin := 50; DownMax := 1000 |}.

(** Three users; the first owns five bandwidth slots and one device, the
    second two slots and one device. *)
Definition store : Store :=
  {| UserStore := [user 1 "ann"; user 2 "bob"; user 3 "cy"];
     BandwidthSlotStore :=
       [slot 1 1 11; slot 2 1 12; slot 3 1 13; slot 4 1 14; slot 5 1 15;
        slot 6 2 16; slot 7 2 17];
     DeviceStore :=
       [device 1 1 "AA:BB:CC:00:00:01" "laptop";
        device 2 2 "AA:BB:CC:00:00:02" "phone"] |}.

Definition the_router : Router :=
  {| bw_entries :=
       [(11, entry "192.168.0.10" "192.168.0.19");
        (12, entry "192.168.0.20" "192.168.0.29");
        (13, entry "192.168.0.30" "192.168.0.39");
        (14, entry "192.168.0.40" "192.168.0.49");
        (15, entry "192.168.0.50" "192.168.0.59");
        (16, entry "192.168.0.60" "192.168.0.69");
        (17, entry "192.168.0.70" "192.168.0.79")]%Z;
     available_dhcp :=
       [ {| MinAddress := "192.168.0.100"; MaxAddress := "192.168.0.149" |} ];
     available_full :=
       [ {| MinAddress := "192.168.0.100"; MaxAddress := "192.168.0.149" |};
         {| MinAddress := "192.168.0.200"; MaxAddress := "192.168.0.254" |} ];
     unused := [(11, "192.168.0.11"); (16, "192.168.0.61")]%Z;
     statistics :=
       [ {| Stat_IP := "192.168.0.10"; Stat_Mac := "AA:BB:CC:00:00:01" |} ];
     blocked := [];
     bindings :=
       [ {| Res_Mac := "AA:BB:CC:00:00:02"; Res_IP := "192.168.0.60"; Res_Enabled := true |};
         {| Res_Mac := "AA:BB:CC:00:00:01"; Res_IP := "192.168.0.10"; Res_Enabled := false |} ];
     reservations :=
       [ {| Res_Mac := "AA:BB:CC:00:00:01"; Res_IP := "192.168.0.10"; Res_Enabled := true |} ] |}.

(** A session over the sample installation. *)
Definition session (c : Context) (input : list Line) (schedule : list (option string))
  : Env :=
  {| ctx := c; stdin := input; trace := []; db := store; router := the_router;
     faults := schedule |}.

(** The context after the selection of a user. *)
Definition selected (userId : Z) : Context := {["userId" := userId]}.

(** The first page of the users screen over the sample store. *)
Definition users_shown : Pager User :=
  {| pageNumber := 1; showList := true; rows := UserStore store |}.

(** The first and the second page of the slots of user 1, who owns exactly
    [pageSize] slots. *)
Definition slots_shown : Pager BandwidthSlot :=
  {| pageNumber := 1; showList := true;
     rows := [slot 1 1 11; slot 2 1 12; slot 3 1 13; slot 4 1 14; slot 5 1 15] |}.

Definition slots_next : Pager BandwidthSlot :=
  {| pageNumber := 2; showList := true; rows := rows slots_shown |}.

(** The page of the assign-slot screen with DHCP bounds. *)
Definition ranges_shown : Pager BwSlot :=
  {| pageNumber := 1; showList := true; rows := available_dhcp the_router |}.

(** A menu level with two children that need a selected user and one that
    needs nothing. *)
Definition level : Action :=
  {| Addr := 50; Name := "Level";
     Children := [ActionAssignSlot lib; ActionDeregisterUser; ActionBlockDevice lib];
     RequiresContext := []; Action_ := None |}.

End Sample.

(** ** Vocabulary of the properties *)

(** The contract of section 4.1 in its own words: a child is offered when
    every one of its required keys is bound, and the valid children are the
    children that are offered, in their order. *)
Definition offered (ctx : Context) (child : Action) : bool :=
  forallb (fun k => bool_decide (is_Some (ctx !! k))) (RequiresContext child).

Definition valid_children (action : Action) (ctx : Context) : list Action :=
  List.filter (offered ctx) (Children action).

(** The collaborator calls recorded in a trace. *)
Definition calls (t : list Event) : list Call :=
  omap (fun e => match e with Called c => Some c | _ => None end) t.

(** An input that keeps the screen where it is: the prompt part prompts,
    reads the line, prints [report], keeps the page number and the rows,
    clears [showList] and continues the loop; the render part that follows
    prints one message and fetches nothing. No collaborator is called, and
    neither the context nor any collaborator data changes. *)
Definition stays {R} (render : Pager R -> M (Pager R))
    (prompt : Pager R -> M (Flow (Pager R) Empty_set))
    (report : list Event) (st : Pager R) (env : Env) : Prop :=
  exists st' env1 env2 question message,
    prompt st env = (Val (Continue st'), env1) /\
    pageNumber st' = pageNumber st /\ showList st' = false /\ rows st' = rows st /\
    trace env1 = (trace env ++ [Printed question; Read] ++ report)%list /\
    render st' env1 = (Val st', env2) /\
    trace env2 = (trace env1 ++ [Printed message])%list /\
    calls (trace env2) = calls (trace env) /\
    db env2 = db env /\ router env2 = router env /\ faults env2 = faults env /\
    ctx env2 = ctx env.

(** A token that is none of the scroll commands [n], [p], [q]. *)
Definition row_token (choice : string) : Prop :=
  choice <> "n" /\ choice <> "p" /\ choice <> "q".

(** The token is a number within [[1, max]], and [position] is the 0-based
    position it selects. *)
Definition selects (choice : string) (max position : Z) : Prop :=
  Atoi choice = Some (position + 1)%Z /\ (0 <= position < max)%Z.

(** The token is not a number, or a number outside [[1, max]]. *)
Definition invalid_row (choice : string) (max : Z) : Prop :=
  match Atoi choice with
  | Some n => (n < 1 \/ max < n)%Z
  | None => True
  end.

(** The result of a point read whose lookup in the data gives [found]: the
    scheduled fault, if there is one, and [found] otherwise. *)
Definition point_read {A} (env : Env) (found : res A) : res A :=
  match next_fault env with
  | Some msg => Err (Errorf msg)
  | None => found
  end.

(** The first [n] entries of a fault schedule hold no fault. *)
Fixpoint no_fault (n : nat) (schedule : list (option string)) : Prop :=
  match n, schedule with
  | O, _ => True
  | S _, [] => True
  | S _, Some _ :: _ => False
  | S n', None :: rest => no_fault n' rest
  end.

(** The rows that the fetch of each screen reads from the collaborator's
    data. *)
Definition users_page (env : Env) (st : Pager User) : list User :=
  page pageSize (pageNumber st) (UserStore (db env)).

Definition user_slots_page (userId : Z) (env : Env) (st : Pager BandwidthSlot)
  : list BandwidthSlot :=
  page pageSize (pageNumber st)
    (List.filter (fun b => (Slot_UserId b =? userId)%Z) (BandwidthSlotStore (db env))).

Definition devices_page (userId : Z) (userIdProvided : bool) (env : Env)
    (st : Pager Device) : list Device :=
  if userIdProvided && negb (userId =? 0)%Z
  then page pageSize (pageNumber st)
         (List.filter (fun d => (Device_UserId d =? userId)%Z) (DeviceStore (db env)))
  else page pageSize (pageNumber st) (DeviceStore (db env)).

Definition available_slots (useDhcpBounds : bool) (env : Env) : list BwSlot :=
  if useDhcpBounds then available_dhcp (router env) else available_full (router env).

(** [iterates body s env s' env' n]: started on [s] in [env], the loop over
    [body] completes [n] iterations, each ending in [continue], and is then
    about to run its next iteration on [s'] in [env']. *)
Inductive iterates {S B} (body : S -> M (Flow S B))
  : S -> Env -> S -> Env -> nat -> Prop :=
| iterates_here s env : iterates body s env s env 0
| iterates_next s env s1 env1 s' env' n :
    body s env = (Val (Continue s1), env1) ->
    iterates body s1 env1 s' env' n ->
    iterates body s env s' env' (Datatypes.S n).

(** The menu loop of a frame over [actions] that runs with [fuel]. *)
Definition menu_loop_body (fuel : nat) (actions : list Action)
  : unit -> M (Flow unit unit) :=
  menu_body (nested fuel) fuel (menu_options actions) actions.

(** An iteration of the menu loop that starts in [env] reads the number of
    [action], which is not the Quit node, and is then in [env1]. *)
Definition chooses (actions : list Action) (env env1 : Env) (action : Action)
  : Prop :=
  exists choice,
    GetChoiceInput (len actions) (emit (Printed (menu_prompt actions)) env)
    = (Val (Ok choice), env1) /\
    choice <> ExitChoice /\ choice <> QuitChoice /\ (0 <= choice)%Z /\
    actions !! Z.to_nat choice = Some action /\
    is_ActionQuit action = false.

(** The fault that the schedule holds for the [n]-th collaborator call from
    now, if any. *)
Definition fault_at (n : nat) (env : Env) : option string :=
  match faults env !! n with
  | Some (Some msg) => Some msg
  | _ => None
  end.

(** The tables of the store without the records of a user. *)
Definition slots_without (userId : Z) (s : Store) : list BandwidthSlot :=
  List.filter (fun b => negb (Slot_UserId b =? userId)%Z) (BandwidthSlotStore s).

Definition devices_without (userId : Z) (s : Store) : list Device :=
  List.filter (fun d => negb (Device_UserId d =? userId)%Z) (DeviceStore s).

Definition users_without (userId : Z) (s : Store) : list User :=
  List.filter (fun u => negb (User_Id u =? userId)%Z) (UserStore s).

(** A computation that leaves the binding of ["quit"] as it found it. *)
Definition keeps_quit {A} (c : M A) : Prop :=
  forall env out env', c env = (out, env') -> ctx env' !! "quit" = ctx env !! "quit".

(** A behavior that never touches the quit flag. *)
Definition quiet_behavior (f : ActionFunc) : Prop :=
  forall fuel, keeps_quit (f fuel).

(** A node none of whose behaviors, its own or those below it, touches the
    quit flag. *)
Fixpoint quiet (action : Action) : Prop :=
  match Action_ action with
  | Some f => quiet_behavior f
  | None => True
  end /\
  (fix all (children : list Action) : Prop :=
     match children with
     | [] => True
     | child :: rest => quiet child /\ all rest
     end) (Children action).

(** The state in which the interpreter has just set the quit flag. *)
Definition quit_set_in (env : Env) : Env :=
  with_ctx (Context_Set "quit" 1 (ctx env)) env.

(** The outcome of a computation started with the quit flag unset: either
    the flag is still unset, or the outcome is [expected] and the final state
    is the very state in which the interpreter set the flag, so that nothing
    was printed, read or called after the flag was set. *)
Definition unwinds {A} (expected : Out A) (env : Env) (out : Out A) (env' : Env)
  : Prop :=
  QuitProgram (ctx env) = false ->
  QuitProgram (ctx env') = false \/
  (out = expected /\
   exists envq, QuitProgram (ctx envq) = false /\ env' = quit_set_in envq).

(** An iteration of the menu loop that starts in [env] reaches the descent
    into the children of [action] in [env1]: the node is chosen, and either
    it has no behavior, or its behavior returns [NEXT] with a nil error. *)
Definition descends (fuel : nat) (actions : list Action) (env : Env)
    (action : Action) (env1 : Env) : Prop :=
  exists e,
    chooses actions env e action /\
    ((Action_ action = None /\ env1 = e) \/
     (exists f, Action_ action = Some f /\ f fuel e = (Return NEXT None, env1))).

(** The failures recorded in a trace that are not owner lookups: failed
    terminal reads, and failed collaborator calls other than the
    [device.GetUser] made to render a row. *)
Definition fatal (t : list Event) : list error :=
  omap (fun ev =>
          match ev with
          | ReadFailed e => Some e
          | Failed (Device_GetUser _) _ => None
          | Failed _ e => Some e
          | _ => None
          end) t.

(** A computation that reports its failures: what it adds to the trace
    holds at most one such failure, and when it holds one, the computation
    has executed [return NEXT, err] with the error of that failure. *)
Definition reports {A} (c : M A) : Prop :=
  forall env out env',
    c env = (out, env') ->
    exists new,
      trace env' = (trace env ++ new)%list /\
      (fatal new = [] \/ exists e, fatal new = [e] /\ out = Return NEXT (Some e)).

(** A fallible call whose failure is in its result: it yields a result, and
    when what it adds to the trace holds such a failure, the result is the
    error of that failure. *)
Definition pending {A} (c : M (res A)) : Prop :=
  forall env out env',
    c env = (out, env') ->
    exists new r,
      out = Val r /\ trace env' = (trace env ++ new)%list /\
      (fatal new = [] \/ exists e, fatal new = [e] /\ r = Err e).

Definition owner_lookup (c : Call) : bool :=
  match c with
  | Device_GetUser _ => true
  | _ => false
  end.

(** The number of terminal reads recorded in a trace. *)
Definition reads (t : list Event) : nat :=
  length (List.filter (fun ev => match ev with Read => true | _ => false end) t).



(** The failed collaborator calls recorded in a trace that are not owner
    lookups: [fatal] without the failed terminal reads. *)
Definition failed_calls (t : list Event) : list error :=
  omap (fun ev =>
          match ev with
          | Failed (Device_GetUser _) _ => None
          | Failed _ e => Some e
          | _ => None
          end) t.

(** A computation that reports its failed calls: what it adds to the trace
    holds at most one failed collaborator call that is not an owner lookup,
    and when it holds one, the computation has executed [return NEXT, err]
    with the error of that call. Nothing is said of a failed terminal
    read. *)
Definition reports_calls {A} (c : M A) : Prop :=
  forall env out env',
    c env = (out, env') ->
    exists new,
      trace env' = (trace env ++ new)%list /\
      (failed_calls new = [] \/
       exists e, failed_calls new = [e] /\ out = Return NEXT (Some e)).

(** A computation that always yields a value: it neither returns from the
    function nor panics, whatever its collaborators answer. *)
Definition renders {A} (c : M A) : Prop :=
  forall env, exists a env', c env = (Val a, env').

(** * Properties *)

(** ** The valid children of a node *)

Lemma exists_key_is_Some (ctx : Context) (k : string) :
  exists_key ctx k = bool_decide (is_Some (ctx !! k)).
Proof.
  unfold exists_key. destruct (ctx !! k) as [v|] eqn:E.
  - symmetry. apply bool_decide_eq_true. eauto.
  - symmetry. apply bool_decide_eq_false. intros [v Hv]. discriminate.
Qed.

Lemma keys_exist_forallb (ctx : Context) (keys : list string) :
  keys_exist ctx keys = forallb (fun k => bool_decide (is_Some (ctx !! k))) keys.
Proof.
  induction keys as [|k keys IH]; simpl; [reflexivity|].
  rewrite exists_key_is_Some, IH.
  destruct (bool_decide (is_Some (ctx !! k))); reflexivity.
Qed.

Lemma GetValidChildren_loop_filter (ctx : Context) (children actions : list Action) :
  GetValidChildren_loop ctx children actions
  = (actions ++ List.filter (offered ctx) children)%list.
Proof.
  revert actions. induction children as [|child rest IH]; intros actions; simpl.
  - now rewrite app_nil_r.
  - unfold offered at 1. rewrite <- keys_exist_forallb.
    destruct (RequiresContext child) as [|k ks] eqn:E.
    + simpl. rewrite IH, <- app_assoc. reflexivity.
    + replace (0 <? len (k :: ks))%Z with true
        by (symmetry; apply Z.ltb_lt; unfold len; simpl; lia).
      destruct (keys_exist ctx (k :: ks)).
      * rewrite IH, <- app_assoc. reflexivity.
      * apply IH.
Qed.

Lemma offered_keys (ctx : Context) (child : Action) :
  offered ctx child = true <->
  (forall k, In k (RequiresContext child) -> is_Some (ctx !! k)).
Proof.
  unfold offered. rewrite forallb_forall. split; intros H k Hk.
  - apply (bool_decide_eq_true (is_Some (ctx !! k))), H, Hk.
  - apply bool_decide_eq_true, H, Hk.
Qed.

Lemma sublist_filter_of {A} (f : A -> bool) (l : list A) :
  sublist (List.filter f l) l.
Proof.
  induction l as [|x l IH]; simpl; [constructor|].
  destruct (f x); now constructor.
Qed.

(** C2. [GetValidChildren] returns exactly the children whose required keys
    are all bound, in their original order; no returned child has an unbound
    required key; the result grows with the context; and binding the one
    missing key of a child makes that child appear. The function only reads
    the context: it takes it as an argument and returns nothing but the
    list. *)
Theorem GetValidChildren_contract (action : Action) (ctx : Context) :
  GetValidChildren action ctx = valid_children action ctx
  /\ (forall child, In child (GetValidChildren action ctx) ->
        In child (Children action) /\
        forall k, In k (RequiresContext child) -> is_Some (ctx !! k))
  /\ sublist (GetValidChildren action ctx) (Children action)
  /\ (forall (ctx' : Context) child,
        (forall k, is_Some (ctx !! k) -> is_Some (ctx' !! k)) ->
        In child (GetValidChildren action ctx) ->
        In child (GetValidChildren action ctx'))
  /\ (forall child k v,
        In child (Children action) ->
        (forall k', In k' (RequiresContext child) -> k' <> k -> is_Some (ctx !! k')) ->
        In child (GetValidChildren action (<[k := v]> ctx))).
Proof.
  assert (Heq : forall c, GetValidChildren action c = valid_children action c).
  { intros c. unfold GetValidChildren. now rewrite GetValidChildren_loop_filter. }
  split; [apply Heq|]. rewrite !Heq. unfold valid_children.
  split; [|split; [|split]].
  - intros child Hin. apply filter_In in Hin as [Hin Hoff].
    split; [exact Hin|]. now apply offered_keys.
  - apply sublist_filter_of.
  - intros ctx' child Hgrow Hin. rewrite Heq. unfold valid_children.
    apply filter_In in Hin as [Hin Hoff]. apply filter_In. split; [exact Hin|].
    apply offered_keys. intros k Hk. apply Hgrow.
    revert k Hk. now apply offered_keys.
  - intros child k v Hin Hrest. rewrite Heq. unfold valid_children.
    apply filter_In. split; [exact Hin|].
    apply offered_keys. intros k' Hk'.
    destruct (decide (k = k')) as [->|Hne].
    + rewrite lookup_insert_eq. eauto.
    + rewrite lookup_insert_ne by exact Hne. apply Hrest; [exact Hk'|congruence].
Qed.

(** ** Scrolling *)

Lemma calls_app (a b : list Event) : calls (a ++ b) = (calls a ++ calls b)%list.
Proof. apply omap_app. Qed.

Lemma scroll_next_short {R} (st : Pager R) :
  (len (rows st) < pageSize)%Z -> scroll_next st = hide_list st.
Proof.
  intros H. unfold scroll_next.
  destruct (Z.eqb_spec (len (rows st)) pageSize); [lia|reflexivity].
Qed.

Lemma scroll_previous_first {R} (st : Pager R) :
  pageNumber st = 1%Z -> scroll_previous st = hide_list st.
Proof. intros H. unfold scroll_previous. now rewrite H. Qed.

(** C8. In each of the five paginated screens, [n] on a page shorter than
    [pageSize] and [p] on page 1 leave [pageNumber] and the rows as they
    are and clear [showList]; the iteration that follows calls no
    collaborator, so nothing is fetched. *)
Theorem scroll_at_the_edge (lib : Lib) (env : Env) (rest : list Line) :
  (stdin env = Text "n" :: rest ->
     (forall st, (len (rows st) < pageSize)%Z ->
        stays ListUsers_render ListUsers_prompt [] st env) /\
     (forall userId st, (len (rows st) < pageSize)%Z ->
        stays (ListUserBandwidthSlots_render userId) ListUserBandwidthSlots_prompt [] st env) /\
     (forall userId useDhcpBounds st, (len (rows st) < pageSize)%Z ->
        stays (AssignSlot_render lib useDhcpBounds) (AssignSlot_prompt lib userId) [] st env) /\
     (forall userId userIdProvided st, (len (rows st) < pageSize)%Z ->
        stays (ListDevices_render userId userIdProvided) ListDevices_prompt [] st env) /\
     (forall deviceMap st, (len (rows st) < pageSize)%Z ->
        stays (ShowConnectedDevices_render deviceMap) ShowConnectedDevices_prompt [] st env))
  /\
  (stdin env = Text "p" :: rest ->
     (forall st, pageNumber st = 1%Z ->
        stays ListUsers_render ListUsers_prompt [] st env) /\
     (forall userId st, pageNumber st = 1%Z ->
        stays (ListUserBandwidthSlots_render userId) ListUserBandwidthSlots_prompt [] st env) /\
     (forall userId useDhcpBounds st, pageNumber st = 1%Z ->
        stays (AssignSlot_render lib useDhcpBounds) (AssignSlot_prompt lib userId) [] st env) /\
     (forall userId userIdProvided st, pageNumber st = 1%Z ->
        stays (ListDevices_render userId userIdProvided) ListDevices_prompt [] st env) /\
     (forall deviceMap st, pageNumber st = 1%Z ->
        stays (ShowConnectedDevices_render deviceMap) ShowConnectedDevices_prompt [] st env)).
Proof.
  destruct env as [c i t d r f]; simpl.
  split; intros ->.
  - repeat split; intros;
      [ unfold ListUsers_prompt | unfold ListUserBandwidthSlots_prompt
      | unfold AssignSlot_prompt | unfold ListDevices_prompt
      | unfold ShowConnectedDevices_prompt ];
      (match goal with
       | H : (len (rows ?st) < pageSize)%Z |- _ =>
           pose proof (scroll_next_short st H) as Hs
       end);
      unfold stays; do 5 eexists;
      (split; [cbn; rewrite Hs; reflexivity|]);
      (split; [reflexivity|]); (split; [reflexivity|]); (split; [reflexivity|]);
      (split; [cbn; rewrite <- ?app_assoc; reflexivity|]);
      (split; [reflexivity|]); (split; [reflexivity|]);
      cbn; rewrite !calls_app; cbn; rewrite !app_nil_r; auto 10.
  - repeat split; intros;
      [ unfold ListUsers_prompt | unfold ListUserBandwidthSlots_prompt
      | unfold AssignSlot_prompt | unfold ListDevices_prompt
      | unfold ShowConnectedDevices_prompt ];
      (match goal with
       | H : pageNumber ?st = 1%Z |- _ =>
           pose proof (scroll_previous_first st H) as Hs
       end);
      unfold stays; do 5 eexists;
      (split; [cbn; rewrite Hs; reflexivity|]);
      (split; [reflexivity|]); (split; [reflexivity|]); (split; [reflexivity|]);
      (split; [cbn; rewrite <- ?app_assoc; reflexivity|]);
      (split; [reflexivity|]); (split; [reflexivity|]);
      cbn; rewrite !calls_app; cbn; rewrite !app_nil_r; auto 10.
Qed.

(** ** Row selection *)

Lemma GetChoice_selects (choice : string) (max position : Z) :
  selects choice max position -> GetChoice choice max = Ok position.
Proof.
  intros [Hn Hr]. unfold GetChoice. rewrite Hn.
  replace (1 <=? position + 1)%Z with true by (symmetry; apply Z.leb_le; lia).
  replace (position + 1 <=? max)%Z with true by (symmetry; apply Z.leb_le; lia).
  simpl. f_equal. lia.
Qed.

Lemma GetChoice_invalid (choice : string) (max : Z) :
  invalid_row choice max -> GetChoice choice max = Err ErrInvalidChoice.
Proof.
  unfold invalid_row, GetChoice. destruct (Atoi choice) as [n|]; [|reflexivity].
  intros [H|H].
  - replace (1 <=? n)%Z with false by (symmetry; apply Z.leb_gt; lia). reflexivity.
  - replace (n <=? max)%Z with false by (symmetry; apply Z.leb_gt; lia).
    now rewrite andb_false_r.
Qed.

Lemma selects_row_token (choice : string) (max position : Z) :
  selects choice max position -> row_token choice.
Proof.
  intros [Hn _]. repeat split; intros ->; discriminate Hn.
Qed.

Lemma row_token_eqb (choice : string) :
  row_token choice ->
  String.eqb choice "n" = false /\ String.eqb choice "p" = false /\
  String.eqb choice "q" = false.
Proof. intros (Hn & Hp & Hq). repeat split; now apply String.eqb_neq. Qed.

Arguments GetChoice : simpl never.

Ltac row_prompt Htok :=
  destruct (row_token_eqb _ Htok) as (En & Ep & Eq);
  cbn; rewrite En, Ep, Eq.

(** C6, as the code has it. A row token that is not a number within
    [[1, len(page)]] is handled in place by the users, user-slots and
    devices screens: they print "invalid choice. try again", clear
    [showList], continue the loop and fetch nothing in the iteration that
    follows, with the context untouched. The assign-slot screen returns
    [NEXT] with the error "invalid choice" instead, with the context
    untouched. The connected-devices screen, which selects no rows, prints
    "Invalid input" for every row token and continues with its state as it
    was. *)
Theorem invalid_row_selection (lib : Lib) (env : Env) (choice : string)
    (rest : list Line) :
  stdin env = Text choice :: rest ->
  row_token choice ->
  (forall st, invalid_row choice (len (rows st)) ->
     stays ListUsers_render ListUsers_prompt
       [Printed ("invalid choice. try again" +:+ nl)] st env)
  /\ (forall userId st, invalid_row choice (len (rows st)) ->
        stays (ListUserBandwidthSlots_render userId) ListUserBandwidthSlots_prompt
          [Printed ("invalid choice. try again" +:+ nl)] st env)
  /\ (forall userId userIdProvided st, invalid_row choice (len (rows st)) ->
        stays (ListDevices_render userId userIdProvided) ListDevices_prompt
          [Printed ("invalid choice. try again" +:+ nl)] st env)
  /\ (forall userId st, invalid_row choice (len (rows st)) ->
        exists env',
          AssignSlot_prompt lib userId st env
          = (Return NEXT (Some (Errorf "invalid choice")), env')
          /\ ctx env' = ctx env
          /\ trace env' = (trace env ++ [Printed (select_prompt "slot"); Read])%list)
  /\ (forall st,
        exists env',
          ShowConnectedDevices_prompt st env = (Val (Continue st), env')
          /\ ctx env' = ctx env
          /\ trace env' = (trace env ++
                            [Printed (nl +:+ "Scroll with n(ext)/p(revious)/q(uit): ");
                             Read; Printed ("Invalid input" +:+ nl)])%list).
Proof.
  intros Hin Htok. destruct env as [c i t d r f]; simpl in Hin; subst i.
  split; [|split; [|split; [|split]]].
  - intros st Hbad. apply GetChoice_invalid in Hbad.
    unfold stays, ListUsers_prompt. do 5 eexists.
    split; [row_prompt Htok; rewrite Hbad; cbn; reflexivity|].
    repeat (split; [cbn; rewrite <- ?app_assoc; reflexivity|]).
    cbn; rewrite !calls_app; cbn; rewrite !app_nil_r; auto 10.
  - intros userId st Hbad. apply GetChoice_invalid in Hbad.
    unfold stays, ListUserBandwidthSlots_prompt. do 5 eexists.
    split; [row_prompt Htok; rewrite Hbad; cbn; reflexivity|].
    repeat (split; [cbn; rewrite <- ?app_assoc; reflexivity|]).
    cbn; rewrite !calls_app; cbn; rewrite !app_nil_r; auto 10.
  - intros userId userIdProvided st Hbad. apply GetChoice_invalid in Hbad.
    unfold stays, ListDevices_prompt. do 5 eexists.
    split; [row_prompt Htok; rewrite Hbad; cbn; reflexivity|].
    repeat (split; [cbn; rewrite <- ?app_assoc; reflexivity|]).
    cbn; rewrite !calls_app; cbn; rewrite !app_nil_r; auto 10.
  - intros userId st Hbad. apply GetChoice_invalid in Hbad.
    unfold AssignSlot_prompt. eexists.
    split; [row_prompt Htok; rewrite Hbad; cbn; reflexivity|].
    split; [reflexivity|]. cbn. now rewrite <- app_assoc.
  - intros st. unfold ShowConnectedDevices_prompt. eexists.
    split; [row_prompt Htok; reflexivity|].
    split; [reflexivity|]. cbn. now rewrite <- !app_assoc.
Qed.

Lemma selects_index {R} (choice : string) (rows : list R) (position : Z) :
  selects choice (len rows) position ->
  (position <? 0)%Z = false /\ exists row, rows !! Z.to_nat position = Some row.
Proof.
  intros [_ Hr]. split; [apply Z.ltb_ge; lia|].
  apply lookup_lt_is_Some. unfold len in Hr. lia.
Qed.

(** C5, as the code has it. In the users and user-slots screens a number
    within the rendered page takes the identifier of that row, reads the
    entity back from the store, and only when that read succeeds binds the
    identifier under ["userId"] or ["slotId"] and returns [NEXT]; a failed
    read is returned as the error, with the context untouched. In the
    devices screen the identifier of the row is bound under ["deviceId"] and
    [NEXT] is returned. *)
Theorem valid_row_selection (env : Env) (choice : string) (rest : list Line)
    (position : Z) :
  stdin env = Text choice :: rest ->
  (forall st user,
     selects choice (len (rows st)) position ->
     rows st !! Z.to_nat position = Some user ->
     let id := User_Id user in
     let asked :=
       [Printed (select_prompt "user"); Read;
        Printed ("Selected user '" +:+ User_Name user +:+ "'" +:+ nl);
        Called (UserStore_Read id)] in
     exists out env',
       ListUsers_prompt st env = (out, env') /\
       match point_read env (env_db.find_user id (db env)) with
       | Ok _ =>
           out = Return NEXT None /\
           ctx env' = <["userId" := id]> (ctx env) /\
           trace env' = (trace env ++ asked)%list
       | Err e =>
           out = Return NEXT (Some e) /\
           ctx env' = ctx env /\
           trace env' = (trace env ++ asked ++ [Failed (UserStore_Read id) e])%list
       end)
  /\ (forall st slot,
        selects choice (len (rows st)) position ->
        rows st !! Z.to_nat position = Some slot ->
        let id := Slot_Id slot in
        let asked :=
          [Printed (select_prompt "slot"); Read; Called (BandwidthSlotStore_Read id)] in
        exists out env',
          ListUserBandwidthSlots_prompt st env = (out, env') /\
          match point_read env (env_db.find_slot id (db env)) with
          | Ok _ =>
              out = Return NEXT None /\
              ctx env' = <["slotId" := id]> (ctx env) /\
              trace env' = (trace env ++ asked)%list
          | Err e =>
              out = Return NEXT (Some e) /\
              ctx env' = ctx env /\
              trace env' = (trace env ++ asked ++ [Failed (BandwidthSlotStore_Read id) e])%list
          end)
  /\ (forall st device,
        selects choice (len (rows st)) position ->
        rows st !! Z.to_nat position = Some device ->
        exists env',
          ListDevices_prompt st env = (Return NEXT None, env') /\
          ctx env' = <["deviceId" := Device_Id device]> (ctx env) /\
          trace env' = (trace env ++ [Printed (select_prompt "device"); Read])%list).
Proof.
  intros Hin. destruct env as [c i t d r f]; simpl in Hin; subst i.
  split; [|split].
  - intros st user Hsel Hrow id asked.
    pose proof (selects_row_token _ _ _ Hsel) as Htok.
    pose proof (GetChoice_selects _ _ _ Hsel) as Hok.
    destruct (selects_index _ _ _ Hsel) as [Hneg _].
    match goal with |- exists out env', ?run = _ /\ _ =>
      destruct run as [out env'] eqn:E; exists out, env'; split; [reflexivity|]
    end.
    revert E. unfold ListUsers_prompt, point_read, next_fault.
    row_prompt Htok. rewrite Hok. cbn. unfold at_index. rewrite Hneg, Hrow. cbn.
    subst id asked.
    destruct f as [|[msg|] f'];
      destruct (env_db.find_user (User_Id user) d) as [u|e] eqn:Hf;
      unfold try_, bind, env_db.UserStore_Read, env_db.read_only, collab, next_fault;
      cbn; rewrite ?Hf; cbn;
      intros [= <- <-]; cbn; rewrite <- ?app_assoc; cbn; auto.
  - intros st slot Hsel Hrow id asked.
    pose proof (selects_row_token _ _ _ Hsel) as Htok.
    pose proof (GetChoice_selects _ _ _ Hsel) as Hok.
    destruct (selects_index _ _ _ Hsel) as [Hneg _].
    match goal with |- exists out env', ?run = _ /\ _ =>
      destruct run as [out env'] eqn:E; exists out, env'; split; [reflexivity|]
    end.
    revert E. unfold ListUserBandwidthSlots_prompt, point_read, next_fault.
    row_prompt Htok. rewrite Hok. cbn. unfold at_index. rewrite Hneg, Hrow. cbn.
    subst id asked.
    destruct f as [|[msg|] f'];
      destruct (env_db.find_slot (Slot_Id slot) d) as [u|e] eqn:Hf;
      unfold try_, bind, env_db.BandwidthSlotStore_Read, env_db.read_only, collab, next_fault;
      cbn; rewrite ?Hf; cbn;
      intros [= <- <-]; cbn; rewrite <- ?app_assoc; cbn; auto.
  - intros st device Hsel Hrow.
    pose proof (selects_row_token _ _ _ Hsel) as Htok.
    pose proof (GetChoice_selects _ _ _ Hsel) as Hok.
    destruct (selects_index _ _ _ Hsel) as [Hneg _].
    unfold ListDevices_prompt. eexists.
    split.
    { row_prompt Htok. rewrite Hok. cbn. unfold at_index. rewrite Hneg, Hrow. reflexivity. }
    cbn. rewrite <- ?app_assoc. auto.
Qed.

(** ** Empty pages *)

Arguments page : simpl never.

Ltac run_as E :=
  match goal with
  | |- exists env', ?run = _ /\ _ =>
      let out := fresh "out" in
      let env' := fresh "env'" in
      destruct run as [out env'] eqn:E; revert E
  end.

Ltac ran := intros [= <- <-]; eexists; split; [reflexivity|].

Ltac collaborate :=
  unfold try_, bind, PrintTable,
    env_db.UserStore_ReadMany, env_db.BandwidthSlotStore_ReadManyByUserId,
    env_db.DeviceStore_ReadMany, env_db.DeviceStore_ReadManyByUserId,
    env_router.GetBwControlEntriesByList, env_router.GetAvailableBandwidthSlots,
    env_db.read_only, env_db.update, collab, next_fault, settle;
  cbn.

(** C7, as the code has it. When the fetch of a rendering iteration
    returns no rows: the users screen prints "no users found" and returns
    [REPEAT] on page 1, and on a later page prints "no more users found",
    renders the empty table and goes on to its prompt; the user-slots and
    devices screens print their "no ... found" message and return [NEXT] on
    every page; the assign-slot screen prints "no slots found" and returns
    [BACK] on page 1 and [NEXT] on a later page; the connected-devices
    screen, whose rows are fetched once before the loop, prints "No
    connected devices" and returns [NEXT] on page 1 and prints "No more
    devices found" and goes on to its prompt on a later page. No error is
    returned in any of these cases. *)
Theorem empty_page (lib : Lib) (env : Env) :
  (forall st,
     showList st = true -> users_page env st = [] ->
     (pageNumber st = 1%Z -> no_fault 1 (faults env) ->
      exists env',
        ListUsers_render st env = (Return REPEAT None, env') /\
        trace env' = (trace env ++
                        [Called (UserStore_ReadMany pageSize 1);
                         Printed ("no users found" +:+ nl)])%list)
     /\ (pageNumber st <> 1%Z -> no_fault 2 (faults env) ->
         exists env',
           ListUsers_render st env = (Val (with_rows [] st), env') /\
           trace env' = (trace env ++
                           [Called (UserStore_ReadMany pageSize (pageNumber st));
                            Printed ("no more users found" +:+ nl);
                            Called (PrintTable_call [])])%list))
  /\ (forall userId st,
        showList st = true -> user_slots_page userId env st = [] ->
        no_fault 2 (faults env) ->
        exists env',
          ListUserBandwidthSlots_render userId st env = (Return NEXT None, env') /\
          trace env' = (trace env ++
                          [Called (BandwidthSlotStore_ReadManyByUserId userId pageSize
                                     (pageNumber st));
                           Called (Router_GetBwControlEntriesByList []);
                           Printed ("no slots found" +:+ nl)])%list)
  /\ (forall userId userIdProvided st,
        showList st = true -> devices_page userId userIdProvided env st = [] ->
        no_fault 1 (faults env) ->
        exists env' fetch,
          ListDevices_render userId userIdProvided st env = (Return NEXT None, env') /\
          trace env' = (trace env ++ [Called fetch; Printed ("no devices found" +:+ nl)])%list)
  /\ (forall useDhcpBounds st,
        showList st = true -> available_slots useDhcpBounds env = [] ->
        no_fault 1 (faults env) ->
        exists env',
          AssignSlot_render lib useDhcpBounds st env
          = (Return (if (pageNumber st =? 1)%Z then BACK else NEXT) None, env') /\
          trace env' = (trace env ++
                          [Called (Router_GetAvailableBandwidthSlots useDhcpBounds);
                           Printed ("no slots found" +:+ nl)])%list)
  /\ (forall deviceMap st,
        showList st = true -> rows st = [] ->
        (pageNumber st = 1%Z ->
         exists env',
           ShowConnectedDevices_render deviceMap st env = (Return NEXT None, env') /\
           trace env' = (trace env ++ [Printed ("No connected devices" +:+ nl)])%list)
        /\ (pageNumber st <> 1%Z -> no_fault 1 (faults env) ->
            exists env',
              ShowConnectedDevices_render deviceMap st env = (Val st, env') /\
              trace env' = (trace env ++
                              [Printed ("No more devices found" +:+ nl);
                               Called (PrintTable_call [])])%list)).
Proof.
  destruct env as [c i t d r f].
  split; [|split; [|split; [|split]]].
  - intros [pn sl rs]; simpl; intros -> Hpage. unfold users_page in Hpage; simpl in Hpage.
    split.
    + intros -> Hf. run_as E. unfold ListUsers_render. cbn. collaborate.
      rewrite Hpage. destruct f as [|[m|] f']; [|destruct Hf|]; cbn; ran;
        cbn; now rewrite <- !app_assoc.
    + intros Hpn Hf. run_as E. unfold ListUsers_render. cbn. collaborate.
      rewrite Hpage. apply Z.eqb_neq in Hpn.
      destruct f as [|[m|] [|[m'|] f']]; simpl in Hf; try destruct Hf;
        cbn; rewrite Hpn; cbn; ran; cbn; now rewrite <- !app_assoc.
  - intros userId [pn sl rs]; simpl; intros -> Hpage Hf.
    unfold user_slots_page in Hpage; simpl in Hpage.
    run_as E. unfold ListUserBandwidthSlots_render. cbn. collaborate.
    rewrite Hpage.
    destruct f as [|[m|] [|[m'|] f']]; simpl in Hf; try destruct Hf;
      cbn; ran; cbn; now rewrite <- !app_assoc.
  - intros userId userIdProvided [pn sl rs]; simpl; intros -> Hpage Hf.
    unfold devices_page in Hpage; simpl in Hpage.
    match goal with
    | |- exists env' fetch, ?run = _ /\ _ =>
        destruct run as [out env'] eqn:E; revert E
    end.
    unfold ListDevices_render. cbn.
    destruct (userIdProvided && negb (userId =? 0)%Z); collaborate; rewrite Hpage;
      (destruct f as [|[m|] f']; [|destruct Hf|]); cbn;
      intros [= <- <-]; do 2 eexists; (split; [reflexivity|]);
      cbn; now rewrite <- !app_assoc.
  - intros useDhcpBounds [pn sl rs]; simpl; intros -> Hslots Hf.
    unfold available_slots in Hslots; simpl in Hslots.
    run_as E. unfold AssignSlot_render. cbn. collaborate. rewrite Hslots.
    destruct f as [|[m|] f']; [|destruct Hf|]; cbn; ran; cbn; now rewrite <- !app_assoc.
  - intros deviceMap [pn sl rs]; simpl; intros -> ->. split.
    + intros ->. eexists. split; [reflexivity|]. reflexivity.
    + intros Hpn Hf. apply Z.eqb_neq in Hpn.
      run_as E. unfold ShowConnectedDevices_render. cbn. rewrite Hpn. collaborate.
      destruct f as [|[m|] f']; [|destruct Hf|]; cbn; ran; cbn; now rewrite <- !app_assoc.
Qed.

(** ** Loops and frames *)

Lemma loop_return {S B} (fuel : nat) (body : S -> M (Flow S B)) s env nav err env' :
  body s env = (Return nav err, env') ->
  loop (Datatypes.S fuel) body s env = (Return nav err, env').
Proof. intros H. simpl. now rewrite H. Qed.


Lemma loop_iterates {S B} (body : S -> M (Flow S B)) s env s' env' n :
  iterates body s env s' env' n ->
  forall fuel, loop (n + fuel) body s env = loop fuel body s' env'.
Proof.
  induction 1 as [|s env s1 env1 s' env' n Hstep _ IH]; intros fuel.
  - reflexivity.
  - simpl. rewrite Hstep. apply IH.
Qed.

Lemma iterates_snoc {S B} (body : S -> M (Flow S B)) s env s1 env1 s2 env2 n :
  iterates body s env s1 env1 n ->
  body s1 env1 = (Val (Continue s2), env2) ->
  iterates body s env s2 env2 (Datatypes.S n).
Proof.
  induction 1 as [|s env sa enva s' env' n Hstep _ IH]; intros Hlast.
  - econstructor; [exact Hlast|constructor].
  - econstructor; [exact Hstep|]. now apply IH.
Qed.

Lemma RunMenuActions_unfold (fuel : nat) (actions : list Action) (env : Env) :
  RunMenuActions fuel actions env
  = if QuitProgram (ctx env) then (Return BACK None, env)
    else (loop fuel (menu_loop_body fuel actions) tt ;;; return_ NEXT None)%go env.
Proof.
  destruct fuel; cbn; destruct (QuitProgram (ctx env)); reflexivity.
Qed.

Lemma loop_returns_after {S B} (body : S -> M (Flow S B)) s env s' env' n fuel
    nav err env'' :
  iterates body s env s' env' n ->
  (n < fuel)%nat ->
  body s' env' = (Return nav err, env'') ->
  loop fuel body s env = (Return nav err, env'').
Proof.
  intros Hit Hn Hret.
  replace fuel with (n + Datatypes.S (fuel - n - 1))%nat by lia.
  rewrite (loop_iterates _ _ _ _ _ _ Hit). now apply loop_return.
Qed.


(** A frame whose loop, after [n] iterations, runs an iteration that
    returns, returns the same. *)
Lemma frame_returns (fuel : nat) (actions : list Action) env0 env n nav err env' :
  QuitProgram (ctx env0) = false ->
  iterates (menu_loop_body fuel actions) tt env0 tt env n ->
  (n < fuel)%nat ->
  menu_loop_body fuel actions tt env = (Return nav err, env') ->
  RunMenuActions fuel actions env0 = (Return nav err, env').
Proof.
  intros Hq Hit Hn Hret. rewrite RunMenuActions_unfold, Hq.
  unfold bind. now rewrite (loop_returns_after _ _ _ _ _ _ _ _ _ _ Hit Hn Hret).
Qed.


Lemma menu_body_choice run fuel actions env env1 action :
  chooses actions env env1 action ->
  menu_body run fuel (menu_options actions) actions tt env
  = match Action_ action with
    | Some f =>
        (r <- invoke (f fuel) ;;
         let '(navigation, err) := r in
         match err with
         | Some e => return_ NEXT (Some e)
         | None =>
             match navigation with
             | BACK => ret (Break tt)
             | REPEAT => ret (Continue tt)
             | NEXT => menu_descend run action
             end
         end)%go env1
    | None => menu_descend run action env1
    end.
Proof.
  intros (choice & Hread & Hexit & Hquit & Hpos & Hat & Hnode).
  unfold menu_body, bind at 1, Printf, modify.
  change (emit (Printed _) env) with (emit (Printed (menu_prompt actions)) env).
  unfold bind at 1. rewrite Hread.
  apply Z.eqb_neq in Hexit, Hquit. rewrite Hexit, Hquit.
  unfold bind at 1, at_index.
  replace (choice <? 0)%Z with false by (symmetry; apply Z.ltb_ge; lia).
  rewrite Hat. unfold ret. rewrite Hnode.
  destruct (Action_ action); reflexivity.
Qed.

(** What an iteration of the menu loop does with the result of the chosen
    behavior. *)
Lemma menu_body_behavior run fuel actions env env1 action f nav err env2 :
  chooses actions env env1 action ->
  Action_ action = Some f ->
  f fuel env1 = (Return nav err, env2) ->
  menu_body run fuel (menu_options actions) actions tt env
  = match err with
    | Some e => (Return NEXT (Some e), env2)
    | None =>
        match nav with
        | BACK => (Val (Break tt), env2)
        | REPEAT => (Val (Continue tt), env2)
        | NEXT => menu_descend run action env2
        end
    end.
Proof.
  intros Hch Hf Hrun. rewrite (menu_body_choice _ _ _ _ _ _ Hch), Hf.
  unfold bind, invoke. rewrite Hrun. destruct err; [reflexivity|].
  destruct nav; reflexivity.
Qed.

(** ** The start address of the assign-slot form *)

(** The prompt part of the assign-slot screen for a start address below the
    range of the selected slot. *)
Lemma AssignSlot_prompt_below_range (lib : Lib) (userId : Z) (st : Pager BwSlot)
    (env : Env) (choice text : string) (rest : list Line) (position : Z)
    (slot : BwSlot) (start low : Z) :
  stdin env = Text choice :: Text text :: rest ->
  selects choice (len (rows st)) position ->
  rows st !! Z.to_nat position = Some slot ->
  text <> "" ->
  IsValidIPv4Address lib text = true ->
  Ip2Int lib text = Ok start ->
  Ip2Int lib (MinAddress slot) = Ok low ->
  (start < low)%Z ->
  exists env',
    AssignSlot_prompt lib userId st env = (Return REPEAT None, env') /\
    trace env' = (trace env ++
                    [Printed (select_prompt "slot"); Read;
                     Printed ("Enter start IP [" +:+ MinAddress slot +:+ "]: "); Read;
                     Printed "Given start IP is below range. Try again"])%list /\
    ctx env' = ctx env /\ db env' = db env /\ router env' = router env /\
    stdin env' = rest.
Proof.
  intros Hin Hsel Hrow Htext Hvalid Hstart Hlow Hlt.
  destruct env as [c i t d r f]; simpl in Hin; subst i.
  pose proof (selects_row_token _ _ _ Hsel) as Htok.
  pose proof (GetChoice_selects _ _ _ Hsel) as Hok.
  destruct (selects_index _ _ _ Hsel) as [Hneg _].
  apply String.eqb_neq in Htext. apply Z.ltb_lt in Hlt.
  run_as E. unfold AssignSlot_prompt.
  row_prompt Htok. rewrite Hok. cbn. unfold at_index. rewrite Hneg, Hrow. cbn.
  unfold AssignSlot_startIP, try_, bind. cbn. rewrite Htext, Hvalid. cbn.
  rewrite Hstart, Hlow. cbn. rewrite Hlt. cbn.
  ran. cbn. rewrite <- !app_assoc. auto 10.
Qed.

(** The assign-slot behavior returns what an iteration of its list loop
    returns. *)
Lemma ActionAssignSlot_returns (lib : Lib) (fuel : nat) (env0 : Env) (userId : Z)
    (useDhcpBounds : bool) envA st envB n st' envC nav err env' :
  ctx env0 !! "userId" = Some userId ->
  loop fuel (AssignSlot_bounds) tt env0 = (Val useDhcpBounds, envA) ->
  iterates (AssignSlot_body lib userId useDhcpBounds) first_page envA st envB n ->
  (n < fuel)%nat ->
  AssignSlot_render lib useDhcpBounds st envB = (Val st', envC) ->
  AssignSlot_prompt lib userId st' envC = (Return nav err, env') ->
  ActionAssignSlot_Action lib fuel env0 = (Return nav err, env').
Proof.
  intros Hctx Hbounds Hit Hn Hrender Hprompt.
  unfold ActionAssignSlot_Action, bind at 1, get_ctx, exists_key, index.
  rewrite Hctx. cbn [negb]. unfold bind at 1. rewrite Hbounds.
  apply (loop_returns_after _ _ _ _ _ _ _ _ _ _ Hit Hn).
  unfold AssignSlot_body, bind. now rewrite Hrender.
Qed.

(** C9. The assign-slot behavior, called with ["userId"] bound: once the
    question about the DHCP bounds is answered, after any number of
    iterations of the list loop, when the list is rendered and the operator
    selects a row of it and enters a start address that is a valid IPv4
    address but lies below the minimum address of the selected slot, the
    behavior prints the "below range" message and returns [REPEAT] with a
    nil error. [env] is the state in which the behavior prompts for the row:
    from there on nothing but the two prompts, the two reads and the message
    happens, nothing is written and the context is untouched. *)
Theorem start_ip_below_range (lib : Lib) (fuel : nat) (env0 : Env) (userId : Z)
    (useDhcpBounds : bool) (envA : Env) (st : Pager BwSlot) (envB : Env) (n : nat)
    (st' : Pager BwSlot) (env : Env) (choice text : string) (rest : list Line)
    (position : Z) (slot : BwSlot) (start low : Z) :
  ctx env0 !! "userId" = Some userId ->
  loop fuel AssignSlot_bounds tt env0 = (Val useDhcpBounds, envA) ->
  iterates (AssignSlot_body lib userId useDhcpBounds) first_page envA st envB n ->
  (n < fuel)%nat ->
  AssignSlot_render lib useDhcpBounds st envB = (Val st', env) ->
  stdin env = Text choice :: Text text :: rest ->
  selects choice (len (rows st')) position ->
  rows st' !! Z.to_nat position = Some slot ->
  text <> "" ->
  IsValidIPv4Address lib text = true ->
  Ip2Int lib text = Ok start ->
  Ip2Int lib (MinAddress slot) = Ok low ->
  (start < low)%Z ->
  exists env',
    ActionAssignSlot_Action lib fuel env0 = (Return REPEAT None, env') /\
    AssignSlot_prompt lib userId st' env = (Return REPEAT None, env') /\
    trace env' = (trace env ++
                    [Printed (select_prompt "slot"); Read;
                     Printed ("Enter start IP [" +:+ MinAddress slot +:+ "]: "); Read;
                     Printed "Given start IP is below range. Try again"])%list /\
    ctx env' = ctx env /\ db env' = db env /\ router env' = router env /\
    stdin env' = rest.
Proof.
  intros Hctx Hbounds Hit Hn Hrender Hin Hsel Hrow Htext Hvalid Hstart Hlow Hlt.
  destruct (AssignSlot_prompt_below_range lib userId st' env choice text rest position
              slot start low Hin Hsel Hrow Htext Hvalid Hstart Hlow Hlt)
    as (env' & Hprompt & H).
  exists env'. split; [|split; [exact Hprompt|exact H]].
  exact (ActionAssignSlot_returns _ _ _ _ _ _ _ _ _ _ _ _ _ _
           Hctx Hbounds Hit Hn Hrender Hprompt).
Qed.

(** C10. In the assign-slot behavior a non-empty start address that is not
    a valid IPv4 address makes the behavior return [REPEAT] together with
    the error "invalid IPv4 address". A frame of the interpreter looks at
    the error of a behavior before it looks at its navigation value: when a
    behavior returns [REPEAT] with an error, the frame returns [NEXT] with
    that error at once, in the state the behavior left; when a behavior
    returns [REPEAT] with a nil error, as the assign-slot behavior does for
    a valid address out of range, the loop of the frame goes on to its next
    iteration. *)
Theorem malformed_start_ip (lib : Lib) :
  (forall userId st env choice text rest position slot,
     stdin env = Text choice :: Text text :: rest ->
     selects choice (len (rows st)) position ->
     rows st !! Z.to_nat position = Some slot ->
     text <> "" ->
     IsValidIPv4Address lib text = false ->
     exists env',
       AssignSlot_prompt lib userId st env
       = (Return REPEAT (Some (Errorf "invalid IPv4 address")), env') /\
       trace env' = (trace env ++
                       [Printed (select_prompt "slot"); Read;
                        Printed ("Enter start IP [" +:+ MinAddress slot +:+ "]: ");
                        Read])%list /\
       ctx env' = ctx env /\ stdin env' = rest)
  /\ (forall fuel actions env0 n env env1 action f e env2,
        QuitProgram (ctx env0) = false ->
        iterates (menu_loop_body fuel actions) tt env0 tt env n ->
        (n < fuel)%nat ->
        chooses actions env env1 action ->
        Action_ action = Some f ->
        f fuel env1 = (Return REPEAT (Some e), env2) ->
        RunMenuActions fuel actions env0 = (Return NEXT (Some e), env2))
  /\ (forall fuel actions env0 n env env1 action f env2,
        iterates (menu_loop_body fuel actions) tt env0 tt env n ->
        chooses actions env env1 action ->
        Action_ action = Some f ->
        f fuel env1 = (Return REPEAT None, env2) ->
        iterates (menu_loop_body fuel actions) tt env0 tt env2 (S n)).
Proof.
  split; [|split].
  - intros userId st env choice text rest position slot Hin Hsel Hrow Htext Hbad.
    destruct env as [c i t d r f]; simpl in Hin; subst i.
    pose proof (selects_row_token _ _ _ Hsel) as Htok.
    pose proof (GetChoice_selects _ _ _ Hsel) as Hok.
    destruct (selects_index _ _ _ Hsel) as [Hneg _].
    apply String.eqb_neq in Htext.
    run_as E. unfold AssignSlot_prompt.
    row_prompt Htok. rewrite Hok. cbn. unfold at_index. rewrite Hneg, Hrow. cbn.
    unfold AssignSlot_startIP, try_, bind. cbn. rewrite Htext, Hbad. cbn.
    ran. cbn. rewrite <- !app_assoc. auto.
  - intros fuel actions env0 n env env1 action f e env2 Hq Hit Hn Hch Hf Hrun.
    apply (frame_returns _ _ _ _ _ _ _ _ Hq Hit Hn).
    unfold menu_loop_body.
    now rewrite (menu_body_behavior _ _ _ _ _ _ _ _ _ _ Hch Hf Hrun).
  - intros fuel actions env0 n env env1 action f env2 Hit Hch Hf Hrun.
    apply (iterates_snoc _ _ _ _ _ _ _ _ Hit).
    unfold menu_loop_body.
    now rewrite (menu_body_behavior _ _ _ _ _ _ _ _ _ _ Hch Hf Hrun).
Qed.

(** ** Deregistering a user *)

(** C4. With ["userId"] bound, the deregister-user behavior deletes the
    bandwidth slots of the user, then the devices of the user, then the user
    record, and stops at the first delete that fails: it returns that error,
    the deletes made before it stay made, the user table is as it was and
    ["userId"] is still bound. Only when the three deletes succeed is
    ["userId"] removed from the context and [BACK] returned. *)
Theorem deregister_user (fuel : nat) (env : Env) (userId : Z) :
  ctx env !! "userId" = Some userId ->
  let slots := BandwidthSlotStore_DeleteByUserId userId in
  let devices := DeviceStore_DeleteByUserId userId in
  let user := UserStore_Delete userId in
  exists out env',
    ActionDeregisterUser_Action fuel env = (out, env') /\
    match fault_at 0 env, fault_at 1 env, fault_at 2 env with
    | Some msg, _, _ =>
        out = Return NEXT (Some (Errorf msg)) /\
        calls (trace env') = (calls (trace env) ++ [slots])%list /\
        db env' = db env /\
        ctx env' = ctx env
    | None, Some msg, _ =>
        out = Return NEXT (Some (Errorf msg)) /\
        calls (trace env') = (calls (trace env) ++ [slots; devices])%list /\
        BandwidthSlotStore (db env') = slots_without userId (db env) /\
        DeviceStore (db env') = DeviceStore (db env) /\
        UserStore (db env') = UserStore (db env) /\
        ctx env' = ctx env
    | None, None, Some msg =>
        out = Return NEXT (Some (Errorf msg)) /\
        calls (trace env') = (calls (trace env) ++ [slots; devices; user])%list /\
        BandwidthSlotStore (db env') = slots_without userId (db env) /\
        DeviceStore (db env') = devices_without userId (db env) /\
        UserStore (db env') = UserStore (db env) /\
        ctx env' = ctx env
    | None, None, None =>
        out = Return BACK None /\
        calls (trace env') = (calls (trace env) ++ [slots; devices; user])%list /\
        BandwidthSlotStore (db env') = slots_without userId (db env) /\
        DeviceStore (db env') = devices_without userId (db env) /\
        UserStore (db env') = users_without userId (db env) /\
        ctx env' = delete "userId" (ctx env)
    end.
Proof.
  intros Hctx slots devices user.
  destruct env as [c i t d r f]; simpl in Hctx.
  match goal with
  | |- exists out env', ?run = _ /\ _ =>
      destruct run as [out env'] eqn:E; exists out, env'; split; [reflexivity|]
  end.
  revert E. unfold ActionDeregisterUser_Action, bind at 1, get_ctx, exists_key, index.
  cbn [ctx]. rewrite Hctx. cbn [negb].
  unfold fault_at, slots_without, devices_without, users_without.
  destruct f as [|[m1|] [|[m2|] [|[m3|] f']]]; cbn;
    unfold try_, bind, env_db.BandwidthSlotStore_DeleteByUserId,
      env_db.DeviceStore_DeleteByUserId, env_db.UserStore_Delete,
      env_db.update, collab, next_fault, settle; cbn;
    intros [= <- <-]; cbn; rewrite !calls_app; cbn;
    rewrite <- ?app_assoc, ?app_nil_r; cbn; auto 10.
Qed.

(** ** The quit flag *)

Lemma keeps_ret {A} (a : A) : keeps_quit (ret a).
Proof. intros env out env' [= <- <-]. reflexivity. Qed.

Lemma keeps_return {A} nav err : keeps_quit (@return_ A nav err).
Proof. intros env out env' [= <- <-]. reflexivity. Qed.

Lemma keeps_panic {A} : keeps_quit (@panic A).
Proof. intros env out env' [= <- <-]. reflexivity. Qed.

Lemma keeps_get_ctx : keeps_quit get_ctx.
Proof. intros env out env' [= <- <-]. reflexivity. Qed.

Lemma keeps_Printf s : keeps_quit (Printf s).
Proof. intros env out env' [= <- <-]. reflexivity. Qed.

Lemma keeps_Println s : keeps_quit (Println s).
Proof. intros env out env' [= <- <-]. reflexivity. Qed.

Lemma keeps_GetInput : keeps_quit GetInput.
Proof.
  intros env out env'. unfold GetInput. cbn.
  destruct (stdin env) as [|[s|msg] rest]; intros [= <- <-]; reflexivity.
Qed.

Lemma keeps_bind {A B} (c : M A) (k : A -> M B) :
  keeps_quit c -> (forall a, keeps_quit (k a)) -> keeps_quit (bind c k).
Proof.
  intros Hc Hk env out env'. unfold bind.
  destruct (c env) as [[a|nav err| |] env1] eqn:E; pose proof (Hc _ _ _ E) as H1.
  - intros H2. apply Hk in H2. congruence.
  - intros [= <- <-]. exact H1.
  - intros [= <- <-]. exact H1.
  - intros [= <- <-]. exact H1.
Qed.

Lemma keeps_try {A B} (c : M (res A)) (k : A -> M B) :
  keeps_quit c -> (forall a, keeps_quit (k a)) -> keeps_quit (try_ c k).
Proof.
  intros Hc Hk. apply keeps_bind; [exact Hc|].
  intros [a|e]; [apply Hk|apply keeps_return].
Qed.

Lemma keeps_loop {S B} (fuel : nat) (body : S -> M (Flow S B)) (s : S) :
  (forall s, keeps_quit (body s)) -> keeps_quit (loop fuel body s).
Proof.
  intros Hbody. revert s. induction fuel as [|fuel IH]; intros s env out env'; simpl.
  - intros [= <- <-]. reflexivity.
  - destruct (body s env) as [[[s'|b]|nav err| |] env1] eqn:E;
      pose proof (Hbody _ _ _ _ E) as H1.
    + intros H2. apply IH in H2. congruence.
    + intros [= <- <-]. exact H1.
    + intros [= <- <-]. exact H1.
    + intros [= <- <-]. exact H1.
    + intros [= <- <-]. exact H1.
Qed.

Lemma keeps_collab {A} (c : Call) (op : Env -> res A * Env) :
  (forall env, ctx (snd (op env)) = ctx env) -> keeps_quit (collab c op).
Proof.
  intros Hop env out env'. unfold collab, settle.
  destruct (next_fault env).
  - intros [= <- <-]. reflexivity.
  - match goal with |- context [op ?e] => specialize (Hop e); destruct (op e) as [r e2] end.
    simpl in Hop. destruct r; intros [= <- <-]; cbn; rewrite Hop; reflexivity.
Qed.

Lemma keeps_read_only {A} c (f : Store -> res A) : keeps_quit (env_db.read_only c f).
Proof. apply keeps_collab. reflexivity. Qed.

Lemma keeps_update c (f : Store -> Store) : keeps_quit (env_db.update c f).
Proof. apply keeps_collab. reflexivity. Qed.

Lemma keeps_create c (f : Store -> Z * Store) : keeps_quit (env_db.create c f).
Proof.
  apply keeps_collab. intros env. destruct (f (db env)). reflexivity.
Qed.

Lemma keeps_router_update c (f : Router -> Router) :
  keeps_quit (env_router.update c f).
Proof. apply keeps_collab. reflexivity. Qed.

Lemma keeps_at_index {A} (xs : list A) i : keeps_quit (at_index xs i).
Proof.
  unfold at_index. destruct (i <? 0)%Z; [apply keeps_panic|].
  destruct (xs !! Z.to_nat i); [apply keeps_ret|apply keeps_panic].
Qed.

Lemma keeps_bind_key (key : string) (v : Z) :
  key <> "quit" ->
  keeps_quit (modify (fun env => with_ctx (Context_Set key v (ctx env)) env)).
Proof.
  intros Hk env out env' [= <- <-]. cbn. unfold Context_Set.
  now rewrite lookup_insert_ne.
Qed.

Lemma keeps_delete_key (key : string) :
  key <> "quit" ->
  keeps_quit (modify (fun env => with_ctx (delete key (ctx env)) env)).
Proof.
  intros Hk env out env' [= <- <-]. cbn. now rewrite lookup_delete_ne.
Qed.

Ltac keeps_step :=
  match goal with
  | |- keeps_quit (bind _ _) => apply keeps_bind; [|intros ?]
  | |- keeps_quit (try_ _ _) => apply keeps_try; [|intros ?]
  | |- keeps_quit (ret _) => apply keeps_ret
  | |- keeps_quit (return_ _ _) => apply keeps_return
  | |- keeps_quit panic => apply keeps_panic
  | |- keeps_quit get_ctx => apply keeps_get_ctx
  | |- keeps_quit (Printf _) => apply keeps_Printf
  | |- keeps_quit (Println _) => apply keeps_Println
  | |- keeps_quit GetInput => apply keeps_GetInput
  | |- keeps_quit (at_index _ _) => apply keeps_at_index
  | |- keeps_quit (env_db.read_only _ _) => apply keeps_read_only
  | |- keeps_quit (env_db.update _ _) => apply keeps_update
  | |- keeps_quit (env_db.create _ _) => apply keeps_create
  | |- keeps_quit (env_router.update _ _) => apply keeps_router_update
  | |- keeps_quit (collab _ _) => apply keeps_collab; reflexivity
  | |- keeps_quit (loop _ _ _) => apply keeps_loop; intros ?
  | |- keeps_quit (modify (fun env => with_ctx (Context_Set _ _ _) env)) =>
      apply keeps_bind_key; discriminate
  | |- keeps_quit (modify (fun env => with_ctx (delete _ _) env)) =>
      apply keeps_delete_key; discriminate
  | |- keeps_quit (if ?b then _ else _) => destruct b
  | |- keeps_quit (match ?r with _ => _ end) => destruct r
  | |- keeps_quit (let _ := _ in _) => cbv zeta
  end.

Ltac keeps :=
  repeat first
    [ keeps_step
    | progress unfold GetChoiceInput, GetCharChoice, GetIntInput, PrintTable, WriteToCsv,
        env_db.UserStore_Create,
        env_db.UserStore_ReadMany, env_db.UserStore_Read, env_db.UserStore_Delete,
        env_db.BandwidthSlotStore_ReadManyByUserId, env_db.BandwidthSlotStore_Read,
        env_db.BandwidthSlotStore_Create, env_db.BandwidthSlotStore_Delete,
        env_db.BandwidthSlotStore_DeleteByUserId,
        env_db.DeviceStore_Create, env_db.DeviceStore_Read, env_db.DeviceStore_Delete,
        env_db.DeviceStore_ReadMany, env_db.DeviceStore_ReadManyByUserId,
        env_db.DeviceStore_ReadManyByMac, env_db.DeviceStore_DeleteByUserId,
        env_db.Device_GetUser,
        env_router.GetBwControlEntriesByList, env_router.GetAvailableBandwidthSlots,
        env_router.GetUnusedIPAddress,
        env_router.GetBlockedDevices, env_router.BlockDevice,
        env_router.UnblockDevice, env_router.service_AddBwControlEntry,
        env_router.service_DeleteBwControlEntry,
        env_router.service_GetStatistics, env_router.service_GetIpMacBindings,
        env_router.service_GetAddressReservations,
        env_router.service_MakeIpAddressReservation,
        env_router.service_DeleteIpAddressReservation ].
























Lemma QuitProgram_lookup (c1 c2 : Context) :
  c1 !! "quit" = c2 !! "quit" -> QuitProgram c1 = QuitProgram c2.
Proof. intros H. unfold QuitProgram, index. now rewrite H. Qed.

Lemma QuitProgram_quit_set_in (env : Env) : QuitProgram (ctx (quit_set_in env)) = true.
Proof.
  unfold QuitProgram, index, quit_set_in, Context_Set. cbn.
  now rewrite lookup_insert_eq.
Qed.

Lemma quiet_children (action : Action) : quiet action -> Forall quiet (Children action).
Proof.
  destruct action as [a n children k f]. simpl. intros [_ H].
  induction children as [|child rest IH]; constructor.
  - apply H.
  - apply IH, H.
Qed.

Lemma quiet_valid_children (action : Action) (c : Context) :
  quiet action -> Forall quiet (GetValidChildren action c).
Proof.
  intros H. apply quiet_children in H. rewrite Forall_forall in H |- *.
  intros child Hin. apply H.
  unfold GetValidChildren in Hin. rewrite GetValidChildren_loop_filter in Hin.
  apply list_elem_of_In. apply list_elem_of_In in Hin.
  now apply filter_In in Hin as [Hin _].
Qed.

Lemma keeps_GetChoiceInput max : keeps_quit (GetChoiceInput max).
Proof. unfold GetChoiceInput. keeps. Qed.

Lemma unwinds_kept {A} (expected out : Out A) env env' :
  ctx env' !! "quit" = ctx env !! "quit" -> unwinds expected env out env'.
Proof. intros H Hq. left. rewrite <- Hq. now apply QuitProgram_lookup. Qed.

Lemma menu_descend_unwinds run action env out env' :
  quiet action ->
  (forall children e o e',
     Forall quiet children -> run children e = (o, e') ->
     unwinds (Return NEXT None) e o e') ->
  menu_descend run action env = (out, env') ->
  unwinds (Val (Break tt)) env out env'.
Proof.
  intros Hquiet Hrun. unfold menu_descend, bind at 1, get_ctx.
  destruct (len (GetValidChildren action (ctx env)) >? 0)%Z.
  2:{ intros [= <- <-]. now apply unwinds_kept. }
  unfold bind at 1, invoke.
  destruct (run (GetValidChildren action (ctx env)) env) as [[v|nav err| |] e1] eqn:E.
  - destruct v.
  - pose proof (Hrun _ _ _ _ (quiet_valid_children _ _ Hquiet) E) as H1.
    unfold bind at 1, get_ctx.
    destruct (QuitProgram (ctx e1)) eqn:Hq1.
    + intros [= <- <-] Hq. destruct (H1 Hq) as [H|[[= -> ->] H]]; [congruence|].
      right. split; [reflexivity|exact H].
    + intros Hout Hq. left.
      destruct err; [|destruct (Navigation_eqb nav BACK)];
        injection Hout as <- <-; exact Hq1.
  - intros [= <- <-]. intros Hq.
    destruct (Hrun _ _ _ _ (quiet_valid_children _ _ Hquiet) E Hq) as [H|[[=] _]].
    now left.
  - intros [= <- <-]. intros Hq.
    destruct (Hrun _ _ _ _ (quiet_valid_children _ _ Hquiet) E Hq) as [H|[[=] _]].
    now left.
Qed.

Lemma quiet_behavior_of (action : Action) (f : ActionFunc) :
  quiet action -> Action_ action = Some f -> quiet_behavior f.
Proof. destruct action; simpl. intros [H _] ->. exact H. Qed.

Lemma unwinds_from {A} (expected out : Out A) env e1 env' :
  ctx e1 !! "quit" = ctx env !! "quit" ->
  unwinds expected e1 out env' -> unwinds expected env out env'.
Proof.
  intros K H Hq. apply H. rewrite <- Hq. now apply QuitProgram_lookup.
Qed.

Lemma unwinds_quit_set {A} (out : Out A) env e1 :
  ctx e1 !! "quit" = ctx env !! "quit" ->
  unwinds out env out (quit_set_in e1).
Proof.
  intros K Hq. right. split; [reflexivity|]. exists e1. split; [|reflexivity].
  rewrite <- Hq. now apply QuitProgram_lookup.
Qed.

Lemma menu_body_unwinds run fuel options actions env out env' :
  Forall quiet actions ->
  (forall children e o e',
     Forall quiet children -> run children e = (o, e') ->
     unwinds (Return NEXT None) e o e') ->
  menu_body run fuel options actions tt env = (out, env') ->
  unwinds (Val (Break tt)) env out env'.
Proof.
  intros Hquiet Hrun. unfold menu_body, bind at 1, Printf, modify.
  match goal with |- context [emit ?p env] => set (e0 := emit p env) end.
  unfold bind at 1.
  destruct (GetChoiceInput (len actions) e0) as [[r|nav err| |] e1] eqn:EG;
    pose proof (keeps_GetChoiceInput _ _ _ _ EG) as K1; subst e0; cbn in K1;
    try (intros [= <- <-]; now apply unwinds_kept).
  destruct r as [choice|e].
  2:{ destruct e; cbn; intros [= <- <-]; now apply unwinds_kept. }
  destruct (choice =? ExitChoice)%Z.
  { intros [= <- <-]; now apply unwinds_kept. }
  destruct (choice =? QuitChoice)%Z.
  { cbn. intros [= <- <-]. now apply unwinds_quit_set. }
  unfold bind at 1, at_index.
  destruct (choice <? 0)%Z.
  { intros [= <- <-]; now apply unwinds_kept. }
  destruct (actions !! Z.to_nat choice) as [action|] eqn:Hat.
  2:{ intros [= <- <-]; now apply unwinds_kept. }
  assert (Hqa : quiet action).
  { rewrite Forall_forall in Hquiet. apply Hquiet.
    apply list_elem_of_lookup. eauto. }
  unfold ret. destruct (is_ActionQuit action).
  { cbn. intros [= <- <-]. now apply unwinds_quit_set. }
  destruct (Action_ action) as [f|] eqn:Hf.
  2:{ intros H. apply (unwinds_from _ _ _ e1); [exact K1|].
      now apply (menu_descend_unwinds run action). }
  unfold bind at 1, invoke.
  destruct (f fuel e1) as [[v|nav err| |] e2] eqn:EF;
    pose proof (quiet_behavior_of _ _ Hqa Hf _ _ _ _ EF) as K2;
    try (intros [= <- <-]; apply unwinds_kept; congruence).
  { destruct v. }
  destruct err as [e|].
  { intros [= <- <-]; apply unwinds_kept; congruence. }
  destruct nav.
  - intros H. apply (unwinds_from _ _ _ e2); [congruence|].
    now apply (menu_descend_unwinds run action).
  - intros [= <- <-]; apply unwinds_kept; congruence.
  - intros [= <- <-]; apply unwinds_kept; congruence.
Qed.

Lemma menu_loop_unwinds k run fuel options actions env out env' :
  Forall quiet actions ->
  (forall children e o e',
     Forall quiet children -> run children e = (o, e') ->
     unwinds (Return NEXT None) e o e') ->
  loop k (menu_body run fuel options actions) tt env = (out, env') ->
  unwinds (Val tt) env out env'.
Proof.
  intros Hquiet Hrun. revert env.
  induction k as [|k IH]; intros env; simpl.
  - intros [= <- <-] Hq. now left.
  - destruct (menu_body run fuel options actions tt env) as [[[[]|[]]|nav err| |] e1] eqn:E;
      pose proof (menu_body_unwinds _ _ _ _ _ _ _ Hquiet Hrun E) as H1.
    + intros Hloop Hq. destruct (H1 Hq) as [Hq1|[[=] _]].
      exact (IH _ Hloop Hq1).
    + intros [= <- <-] Hq. destruct (H1 Hq) as [Hq1|[_ Hset]]; [now left|].
      right. split; [reflexivity|exact Hset].
    + intros [= <- <-] Hq. destruct (H1 Hq) as [Hq1|[[=] _]]. now left.
    + intros [= <- <-] Hq. destruct (H1 Hq) as [Hq1|[[=] _]]. now left.
    + intros [= <- <-] Hq. destruct (H1 Hq) as [Hq1|[[=] _]]. now left.
Qed.

Lemma frame_unwinds fuel actions env out env' :
  Forall quiet actions ->
  (forall children e o e',
     Forall quiet children -> nested fuel children e = (o, e') ->
     unwinds (Return NEXT None) e o e') ->
  RunMenuActions fuel actions env = (out, env') ->
  unwinds (Return NEXT None) env out env'.
Proof.
  intros Hquiet Hn. rewrite RunMenuActions_unfold. intros Hrun Hq.
  rewrite Hq in Hrun. unfold bind, menu_loop_body in Hrun.
  destruct (loop fuel _ tt env) as [[[]|nav err| |] e1] eqn:E in Hrun;
    pose proof (menu_loop_unwinds _ _ _ _ _ _ _ _ Hquiet Hn E) as H1;
    injection Hrun as <- <-;
    (destruct (H1 Hq) as [Hq1|[Heq Hset]];
     [now left | first [discriminate Heq | right; split; [reflexivity|exact Hset]]]).
Qed.

Lemma RunMenuActions_unwinds fuel :
  forall actions env out env',
    Forall quiet actions ->
    RunMenuActions fuel actions env = (out, env') ->
    unwinds (Return NEXT None) env out env'.
Proof.
  induction fuel as [|fuel IH]; intros actions env out env' Hquiet;
    apply frame_unwinds; try exact Hquiet; intros children e o e' Hc; simpl.
  - intros [= <- <-] Hqe. now left.
  - now apply IH.
Qed.

Lemma menu_body_descends fuel actions env action env1 :
  descends fuel actions env action env1 ->
  menu_loop_body fuel actions tt env = menu_descend (nested fuel) action env1.
Proof.
  intros (e & Hch & [[Hnone ->]|(f & Hf & Hrun)]); unfold menu_loop_body.
  - now rewrite (menu_body_choice _ _ _ _ _ _ Hch), Hnone.
  - now rewrite (menu_body_behavior _ _ _ _ _ _ _ _ _ _ Hch Hf Hrun).
Qed.







(** ** Failures *)

Lemma fatal_app (a b : list Event) : fatal (a ++ b) = (fatal a ++ fatal b)%list.
Proof. apply omap_app. Qed.

Lemma reports_ret {A} (a : A) : reports (ret a).
Proof. intros env out env' [= <- <-]. exists []. rewrite app_nil_r. auto. Qed.

Lemma reports_return {A} nav err : reports (@return_ A nav err).
Proof. intros env out env' [= <- <-]. exists []. rewrite app_nil_r. auto. Qed.

Lemma reports_panic {A} : reports (@panic A).
Proof. intros env out env' [= <- <-]. exists []. rewrite app_nil_r. auto. Qed.

Lemma reports_get_ctx : reports get_ctx.
Proof. intros env out env' [= <- <-]. exists []. rewrite app_nil_r. auto. Qed.

Lemma reports_Printf s : reports (Printf s).
Proof. intros env out env' [= <- <-]. exists [Printed s]. auto. Qed.

Lemma reports_Println s : reports (Println s).
Proof. intros env out env' [= <- <-]. exists [Printed (s +:+ nl)]. auto. Qed.

Lemma reports_with_ctx (f : Context -> Context) :
  reports (modify (fun env => with_ctx (f (ctx env)) env)).
Proof. intros env out env' [= <- <-]. exists []. cbn. rewrite app_nil_r. auto. Qed.

Lemma reports_bind {A B} (c : M A) (k : A -> M B) :
  reports c -> (forall a, reports (k a)) -> reports (bind c k).
Proof.
  intros Hc Hk env out env'. unfold bind.
  destruct (c env) as [o1 e1] eqn:E.
  destruct (Hc _ _ _ E) as (new1 & T1 & [F1|(e & F1 & ->)]).
  - destruct o1 as [a|nav err| |].
    + intros E2. destruct (Hk _ _ _ _ E2) as (new2 & T2 & H2).
      exists (new1 ++ new2)%list. split.
      * now rewrite T2, T1, app_assoc.
      * now rewrite fatal_app, F1.
    + intros [= <- <-]. exists new1. auto.
    + intros [= <- <-]. exists new1. auto.
    + intros [= <- <-]. exists new1. auto.
  - intros [= <- <-]. exists new1. split; [exact T1|]. right. eauto.
Qed.

Lemma reports_try {A B} (c : M (res A)) (k : A -> M B) :
  pending c -> (forall a, reports (k a)) -> reports (try_ c k).
Proof.
  intros Hc Hk env out env'. unfold try_, bind.
  destruct (c env) as [o1 e1] eqn:E.
  destruct (Hc _ _ _ E) as (new1 & r & -> & T1 & H1).
  destruct r as [a|e].
  - intros E2. destruct (Hk _ _ _ _ E2) as (new2 & T2 & H2).
    exists (new1 ++ new2)%list. split.
    + now rewrite T2, T1, app_assoc.
    + destruct H1 as [F1|(e & _ & [=])]. now rewrite fatal_app, F1.
  - intros [= <- <-]. exists new1. split; [exact T1|].
    destruct H1 as [F1|(e' & F1 & [= <-])]; [now left|right; eauto].
Qed.

Lemma reports_loop {S B} (fuel : nat) (body : S -> M (Flow S B)) (s : S) :
  (forall s, reports (body s)) -> reports (loop fuel body s).
Proof.
  intros Hbody. revert s. induction fuel as [|fuel IH]; intros s env out env'; simpl.
  - intros [= <- <-]. exists []. rewrite app_nil_r. auto.
  - destruct (body s env) as [o1 e1] eqn:E.
    destruct (Hbody _ _ _ _ E) as (new1 & T1 & [F1|(e & F1 & ->)]).
    + destruct o1 as [[s'|b]|nav err| |].
      * intros E2. destruct (IH _ _ _ _ E2) as (new2 & T2 & H2).
        exists (new1 ++ new2)%list. split.
        -- now rewrite T2, T1, app_assoc.
        -- now rewrite fatal_app, F1.
      * intros [= <- <-]. exists new1. auto.
      * intros [= <- <-]. exists new1. auto.
      * intros [= <- <-]. exists new1. auto.
      * intros [= <- <-]. exists new1. auto.
    + intros [= <- <-]. exists new1. split; [exact T1|]. right. eauto.
Qed.

Lemma pending_ret {A} (r : res A) : pending (ret r).
Proof.
  intros env out env' [= <- <-]. exists [], r. rewrite app_nil_r. auto.
Qed.

Lemma pending_GetInput : pending GetInput.
Proof.
  intros env out env'. unfold GetInput. cbn.
  destruct (stdin env) as [|[s|msg] rest]; intros [= <- <-]; cbn.
  - exists [Read; ReadFailed EOF], (Err EOF). rewrite <- app_assoc. cbn. eauto 10.
  - exists [Read], (Ok s). cbn. eauto 10.
  - exists [Read; ReadFailed (Errorf msg)], (Err (Errorf msg)).
    rewrite <- app_assoc. cbn. eauto 10.
Qed.

Lemma fatal_Failed c e : owner_lookup c = false -> fatal [Called c; Failed c e] = [e].
Proof. destruct c; intros H; try discriminate H; reflexivity. Qed.

Lemma fatal_owner_lookup c e : owner_lookup c = true -> fatal [Called c; Failed c e] = [].
Proof. destruct c; intros H; try discriminate H; reflexivity. Qed.

Lemma pending_collab {A} (c : Call) (op : Env -> res A * Env) :
  owner_lookup c = false ->
  (forall env, trace (snd (op env)) = trace env) ->
  pending (collab c op).
Proof.
  intros Hc Hop env out env'. unfold collab, settle.
  destruct (next_fault env) as [msg|].
  - intros [= <- <-]. exists [Called c; Failed c (Errorf msg)], (Err (Errorf msg)).
    cbn. rewrite <- app_assoc. split; [reflexivity|]. split; [reflexivity|].
    right. exists (Errorf msg). split; [now apply fatal_Failed|reflexivity].
  - match goal with |- context [op ?e] => specialize (Hop e); destruct (op e) as [r e2] end.
    simpl in Hop. destruct r as [a|e]; intros [= <- <-]; cbn; rewrite Hop; cbn.
    + exists [Called c], (Ok a). eauto.
    + exists [Called c; Failed c e], (Err e). rewrite <- app_assoc.
      split; [reflexivity|]. split; [reflexivity|].
      right. exists e. split; [now apply fatal_Failed|reflexivity].
Qed.

Lemma pending_read_only {A} c (f : Store -> res A) :
  owner_lookup c = false -> pending (env_db.read_only c f).
Proof. intros H. now apply pending_collab. Qed.

Lemma pending_update c (f : Store -> Store) :
  owner_lookup c = false -> pending (env_db.update c f).
Proof. intros H. now apply pending_collab. Qed.

Lemma pending_create c (f : Store -> Z * Store) :
  owner_lookup c = false -> pending (env_db.create c f).
Proof.
  intros H. apply pending_collab; [exact H|].
  intros env. destruct (f (db env)). reflexivity.
Qed.

Lemma pending_router_update c (f : Router -> Router) :
  owner_lookup c = false -> pending (env_router.update c f).
Proof. intros H. now apply pending_collab. Qed.

Lemma pending_GetIntInput d : pending (GetIntInput d).
Proof.
  intros env out env'. unfold GetIntInput, bind.
  destruct (GetInput env) as [o1 e1] eqn:E.
  destruct (pending_GetInput _ _ _ E) as (new & r & -> & T & H).
  destruct r as [text|e].
  - destruct H as [F|(e & _ & [=])].
    destruct (String.eqb text ""); [|destruct (Atoi text)];
      intros [= <- <-]; exists new; eexists;
      (split; [reflexivity|]); (split; [exact T|now left]).
  - intros [= <- <-]. exists new, (Err e).
    split; [reflexivity|]. split; [exact T|].
    destruct H as [F|(e0 & F & [= <-])]; [now left|right; eauto].
Qed.

Lemma reports_owner_lookup {A} (device : Device) (k : res User -> M A) :
  (forall r, reports (k r)) -> reports (bind (env_db.Device_GetUser device) k).
Proof.
  intros Hk env out env'. unfold try_, bind, env_db.Device_GetUser, env_db.read_only, collab, settle.
  set (c := Device_GetUser (Device_UserId device)).
  destruct (next_fault env) as [msg|].
  - intros E2. destruct (Hk _ _ _ _ E2) as (new2 & T2 & H2).
    exists ([Called c; Failed c (Errorf msg)] ++ new2)%list. split.
    + rewrite T2. cbn. now rewrite <- !app_assoc.
    + now rewrite fatal_app.
  - cbn. destruct (env_db.find_user (Device_UserId device) (db env)) as [u|e].
    + intros E2. destruct (Hk _ _ _ _ E2) as (new2 & T2 & H2).
      exists ([Called c] ++ new2)%list. split.
      * rewrite T2. cbn. now rewrite <- !app_assoc.
      * now rewrite fatal_app.
    + intros E2. destruct (Hk _ _ _ _ E2) as (new2 & T2 & H2).
      exists ([Called c; Failed c e] ++ new2)%list. split.
      * rewrite T2. cbn. now rewrite <- !app_assoc.
      * now rewrite fatal_app.
Qed.

Lemma reports_at_index {A} (xs : list A) i : reports (at_index xs i).
Proof.
  unfold at_index. destruct (i <? 0)%Z; [apply reports_panic|].
  destruct (xs !! Z.to_nat i); [apply reports_ret|apply reports_panic].
Qed.

Lemma reports_range_from {A} (xs : list A) (body : Z -> A -> M unit) i :
  (forall i x, reports (body i x)) -> reports (range_from i xs body).
Proof.
  intros Hbody. revert i. induction xs as [|x xs IH]; intros i; simpl.
  - apply reports_ret.
  - apply reports_bind; [apply Hbody|intros _; apply IH].
Qed.

Lemma reports_range_rows {A B} (xs : list A) (row : A -> M B) :
  (forall x, reports (row x)) -> reports (range_rows xs row).
Proof.
  intros Hrow. induction xs as [|x xs IH]; simpl.
  - apply reports_ret.
  - apply reports_bind; [apply Hrow|intros r].
    apply reports_bind; [apply IH|intros rs; apply reports_ret].
Qed.

Ltac reports_step :=
  match goal with
  | |- reports (bind _ _) =>
      first [ apply reports_owner_lookup; intros ?
            | apply reports_bind; [|intros ?] ]
  | |- reports (try_ _ _) => apply reports_try; [|intros ?]
  | |- reports (ret _) => apply reports_ret
  | |- reports (return_ _ _) => apply reports_return
  | |- reports panic => apply reports_panic
  | |- reports get_ctx => apply reports_get_ctx
  | |- reports (Printf _) => apply reports_Printf
  | |- reports (Println _) => apply reports_Println
  | |- reports (at_index _ _) => apply reports_at_index
  | |- reports (loop _ _ _) => apply reports_loop; intros ?
  | |- reports (modify (fun env => with_ctx (Context_Set ?k ?v (ctx env)) env)) =>
      exact (reports_with_ctx (Context_Set k v))
  | |- reports (modify (fun env => with_ctx (delete ?k (ctx env)) env)) =>
      exact (reports_with_ctx (delete k))
  | |- pending (ret _) => apply pending_ret
  | |- pending GetInput => apply pending_GetInput
  | |- pending (GetIntInput _) => apply pending_GetIntInput
  | |- pending (env_db.read_only _ _) => apply pending_read_only; reflexivity
  | |- pending (env_db.update _ _) => apply pending_update; reflexivity
  | |- pending (env_db.create _ _) => apply pending_create; reflexivity
  | |- pending (env_router.update _ _) => apply pending_router_update; reflexivity
  | |- pending (collab _ _) => apply pending_collab; [reflexivity|reflexivity]
  | |- reports (if ?b then _ else _) => destruct b
  | |- reports (match ?r with _ => _ end) => destruct r
  | |- pending (if ?b then _ else _) => destruct b
  | |- reports (let _ := _ in _) => cbv zeta
  end.

Ltac reporting :=
  repeat first
    [ reports_step
    | progress unfold PrintTable, WriteToCsv,
        env_db.UserStore_Create,
        env_db.UserStore_ReadMany, env_db.UserStore_Read, env_db.UserStore_Delete,
        env_db.BandwidthSlotStore_ReadManyByUserId, env_db.BandwidthSlotStore_Read,
        env_db.BandwidthSlotStore_Create, env_db.BandwidthSlotStore_Delete,
        env_db.BandwidthSlotStore_DeleteByUserId,
        env_db.DeviceStore_Create, env_db.DeviceStore_Read, env_db.DeviceStore_Delete,
        env_db.DeviceStore_ReadMany, env_db.DeviceStore_ReadManyByUserId,
        env_db.DeviceStore_ReadManyByMac, env_db.DeviceStore_DeleteByUserId,
        env_router.GetBwControlEntriesByList, env_router.GetAvailableBandwidthSlots,
        env_router.GetUnusedIPAddress,
        env_router.GetBlockedDevices, env_router.BlockDevice,
        env_router.UnblockDevice, env_router.service_AddBwControlEntry,
        env_router.service_DeleteBwControlEntry,
        env_router.service_GetStatistics, env_router.service_GetIpMacBindings,
        env_router.service_GetAddressReservations,
        env_router.service_MakeIpAddressReservation,
        env_router.service_DeleteIpAddressReservation ].

Lemma reports_ListUsers fuel : reports (ActionListUsers_Action fuel).
Proof.
  unfold ActionListUsers_Action, ListUsers_body, ListUsers_render, ListUsers_prompt.
  reporting.
Qed.

Lemma reports_ListUserBandwidthSlots fuel :
  reports (ActionListUserBandwidthSlots_Action fuel).
Proof.
  unfold ActionListUserBandwidthSlots_Action, ListUserBandwidthSlots_body,
    ListUserBandwidthSlots_render, ListUserBandwidthSlots_prompt.
  reporting.
Qed.

Lemma reports_AssignSlot_bounds u : reports (AssignSlot_bounds u).
Proof.
  intros env out env'. unfold AssignSlot_bounds, GetCharChoice, GetInput, bind. cbn.
  destruct (stdin env) as [|[s|msg] rest]; cbn.
  - intros [= <- <-]. cbn. exists [Printed "Use DHCP IP bounds (y/n): "; Read; ReadFailed EOF].
    rewrite <- !app_assoc. cbn. eauto 10.
  - destruct (String.eqb s "y" || (String.eqb s "n" || false)) eqn:Hs; cbn.
    + destruct (String.eqb s "y"); [|destruct (String.eqb s "n")];
        intros [= <- <-]; cbn; eexists; rewrite <- !app_assoc;
        (split; [reflexivity|now left]).
    + intros [= <- <-]. cbn. eexists. rewrite <- !app_assoc. split; [reflexivity|now left].
  - intros [= <- <-]. cbn.
    exists [Printed "Use DHCP IP bounds (y/n): "; Read; ReadFailed (Errorf msg)].
    rewrite <- !app_assoc. cbn. eauto 10.
Qed.

Lemma reports_AssignSlot (lib : Lib) fuel : reports (ActionAssignSlot_Action lib fuel).
Proof.
  unfold ActionAssignSlot_Action, AssignSlot_body,
    AssignSlot_render, AssignSlot_prompt, AssignSlot_startIP, AssignSlot_create.
  reporting.
  - apply reports_AssignSlot_bounds.
  - apply reports_range_from. intros i x. reporting.
Qed.

Lemma reports_DeregisterUser fuel : reports (ActionDeregisterUser_Action fuel).
Proof. unfold ActionDeregisterUser_Action. reporting. simpl. reporting. Qed.

Lemma reports_device_row device : reports (device_row device).
Proof. unfold device_row. reporting. Qed.

Lemma reports_stat_row deviceMap stat : reports (stat_row deviceMap stat).
Proof. unfold stat_row. reporting. Qed.

Lemma reports_blocked_row device : reports (blocked_row device).
Proof. unfold blocked_row. reporting. Qed.

Lemma reports_ListDevices fuel : reports (ActionListDevices_Action fuel).
Proof.
  unfold ActionListDevices_Action, ListDevices_body, ListDevices_render,
    ListDevices_prompt.
  reporting; apply reports_range_rows, reports_device_row.
Qed.

Lemma reports_ShowConnectedDevices fuel : reports (ActionShowConnectedDevices_Action fuel).
Proof.
  unfold ActionShowConnectedDevices_Action, ShowConnectedDevices_body,
    ShowConnectedDevices_render, ShowConnectedDevices_prompt.
  reporting; apply reports_range_rows; intros x; apply reports_stat_row.
Qed.

Lemma reports_ListBlockedDevices fuel : reports (ActionListBlockedDevices_Action fuel).
Proof.
  unfold ActionListBlockedDevices_Action.
  reporting; apply reports_range_rows, reports_blocked_row.
Qed.

Lemma reports_RegisterUser fuel : reports (ActionRegisterUser_Action fuel).
Proof. unfold ActionRegisterUser_Action. reporting. Qed.

Lemma reports_DeleteSlot fuel : reports (ActionDeleteSlot_Action fuel).
Proof. unfold ActionDeleteSlot_Action. reporting. Qed.

Lemma reports_ListAvailableSlots (lib : Lib) fuel :
  reports (ActionListAvailableSlots_Action lib fuel).
Proof.
  unfold ActionListAvailableSlots_Action. reporting.
  apply reports_range_rows. intros x. unfold available_row. reporting.
Qed.

Lemma pending_ExportBindings (lib : Lib) bindings filename :
  pending (ExportBindings lib bindings filename).
Proof.
  intros env out env'. unfold ExportBindings, WriteToCsv, bind.
  match goal with |- context [collab ?c ?op env] =>
    destruct (collab c op env) as [o1 e1] eqn:E;
    destruct (pending_collab c op eq_refl (fun _ => eq_refl) _ _ _ E)
      as (new & r & -> & T & H)
  end.
  destruct r as [[]|e].
  - intros [= <- <-]. eexists (new ++ [_])%list, (Ok tt).
    split; [reflexivity|]. split.
    + cbn. now rewrite T, app_assoc.
    + destruct H as [F|(e & _ & [=])]. left. now rewrite fatal_app, F.
  - intros [= <- <-]. exists new, (Err e). auto.
Qed.

Lemma reports_ExportARPBindings (lib : Lib) fuel :
  reports (ActionExportARPBindings_Action lib fuel).
Proof.
  unfold ActionExportARPBindings_Action. reporting. apply pending_ExportBindings.
Qed.

Lemma reports_ExportDhcpAddressReservations (lib : Lib) fuel :
  reports (ActionExportDhcpAddressReservations_Action lib fuel).
Proof.
  unfold ActionExportDhcpAddressReservations_Action. reporting.
  apply pending_ExportBindings.
Qed.

Lemma reports_RegisterDevice (lib : Lib) fuel :
  reports (ActionRegisterDevice_Action lib fuel).
Proof. unfold ActionRegisterDevice_Action, RegisterDevice_body. reporting. Qed.

Lemma reports_DeregisterDevice fuel : reports (ActionDeregisterDevice_Action fuel).
Proof. unfold ActionDeregisterDevice_Action. reporting. Qed.

Lemma menu_descend_error run action env1 nav e env2 :
  (len (GetValidChildren action (ctx env1)) > 0)%Z ->
  run (GetValidChildren action (ctx env1)) env1 = (Return nav (Some e), env2) ->
  QuitProgram (ctx env2) = false ->
  menu_descend run action env1 = (Return NEXT (Some e), env2).
Proof.
  intros Hlen Hrun Hq. unfold menu_descend, bind at 1, get_ctx.
  replace (len (GetValidChildren action (ctx env1)) >? 0)%Z with true
    by (symmetry; apply Z.gtb_lt; lia).
  unfold bind at 1, invoke. rewrite Hrun. unfold bind, get_ctx. now rewrite Hq.
Qed.

Lemma menu_body_read_error run fuel actions env msg env1 :
  GetChoiceInput (len actions) (emit (Printed (menu_prompt actions)) env)
  = (Val (Err (Errorf msg)), env1) ->
  menu_body run fuel (menu_options actions) actions tt env
  = (Return NEXT (Some (Errorf msg)), env1).
Proof.
  intros Hread. unfold menu_body, bind at 1, Printf, modify.
  change (emit (Printed _) env) with (emit (Printed (menu_prompt actions)) env).
  unfold bind at 1. now rewrite Hread.
Qed.

Lemma reports_calls_BlockDevice (lib : Lib) fuel : reports_calls (ActionBlockDevice_Action lib fuel).
Proof.
  intros env out env'.
  unfold ActionBlockDevice_Action, try_, bind, Printf, Println, modify, GetInput,
    env_router.BlockDevice, env_router.update, collab, settle, next_fault.
  destruct env as [c i t d r f]. cbn.
  destruct i as [|[text|msg] rest]; cbn;
    try (intros [= <- <-]; cbn; eexists; rewrite <- ?app_assoc;
         (split; [reflexivity|now left])).
  destruct (IsValidMacAddress lib (ToUpper text)); cbn;
    [destruct f as [|[msg|] f']; cbn|];
    intros [= <- <-]; cbn; eexists; rewrite <- ?app_assoc;
    (split; [reflexivity|]); cbn; eauto.
Qed.

Lemma reports_calls_UnblockDevice (lib : Lib) fuel :
  reports_calls (ActionUnblockDevice_Action lib fuel).
Proof.
  intros env out env'.
  unfold ActionUnblockDevice_Action, try_, bind, Printf, Println, modify, GetInput,
    env_router.UnblockDevice, env_router.update, collab, settle, next_fault.
  destruct env as [c i t d r f]. cbn.
  destruct i as [|[text|msg] rest]; cbn;
    try (intros [= <- <-]; cbn; eexists; rewrite <- ?app_assoc;
         (split; [reflexivity|now left])).
  destruct (IsValidMacAddress lib (ToUpper text)); cbn;
    [destruct f as [|[msg|] f']; cbn|];
    intros [= <- <-]; cbn; eexists; rewrite <- ?app_assoc;
    (split; [reflexivity|]); cbn; eauto.
Qed.

Lemma renders_owner_lookup {A} (device : Device) (k : res User -> A) :
  renders (r <- env_db.Device_GetUser device ;; ret (k r)).
Proof.
  intros env. unfold bind, env_db.Device_GetUser, env_db.read_only, collab, settle.
  destruct (next_fault env); [eexists _, _; reflexivity|].
  cbn. destruct (env_db.find_user _ _); eexists _, _; reflexivity.
Qed.

Lemma renders_device_row device : renders (device_row device).
Proof.
  exact (renders_owner_lookup device
           (fun r => [Device_Mac device;
                      match r with
                      | Err _ => Device_Alias device
                      | Ok user => Device_Alias device +:+ tab +:+ tab +:+ User_Name user
                      end])).
Qed.

Lemma renders_blocked_row device : renders (blocked_row device).
Proof.
  exact (renders_owner_lookup device
           (fun r => [Device_Alias device; Device_Mac device;
                      match r with
                      | Err _ => Device_Alias device
                      | Ok user => Device_Alias device +:+ tab +:+ tab +:+ User_Name user
                      end])).
Qed.

Lemma renders_stat_row deviceMap stat : renders (stat_row deviceMap stat).
Proof.
  unfold stat_row. destruct (deviceMap !! Stat_Mac stat) as [device|].
  - exact (renders_owner_lookup device
             (fun r => [Stat_IP stat; Stat_Mac stat;
                        match r with
                        | Err _ => Device_Alias device
                        | Ok user =>
                            Device_Alias device +:+ tab +:+ tab +:+ User_Name user
                        end])).
  - intros env. eexists _, _. reflexivity.
Qed.

(** C3, as the code has it. In a frame of the interpreter, a non-nil error
    returned by the chosen behavior, a non-nil error of the recursive call
    when that call returns with the quit flag unset, and a failed read of
    the menu choice each make the frame return [NEXT] with that error at
    once, in the state in which the error arose. Over a tree none of whose
    behaviors touches the quit flag, as the tree of [actions.go] is, a call
    that returns an error leaves the flag unset. Inside the behaviors of
    [actions.go], every failed terminal read and every failed store, router,
    table-rendering or file-writing call ends the behavior with [NEXT] and
    the error of the failure, with one exception made by design: the owner
    lookup of a device row (lines 598-604, 700-706 and 944-950), whose
    failure is absorbed, the row being rendered with the alias of the device
    alone. For the block-device and unblock-device behaviors this is stated
    of their router call; of their terminal read nothing is said. *)
Theorem errors_propagate (lib : Lib) :
  (forall fuel actions env0 n env env1 action f nav e env2,
     QuitProgram (ctx env0) = false ->
     iterates (menu_loop_body fuel actions) tt env0 tt env n ->
     (n < fuel)%nat ->
     chooses actions env env1 action ->
     Action_ action = Some f ->
     f fuel env1 = (Return nav (Some e), env2) ->
     RunMenuActions fuel actions env0 = (Return NEXT (Some e), env2))
  /\ (forall fuel actions env0 n env action env1 nav e env2,
        QuitProgram (ctx env0) = false ->
        iterates (menu_loop_body fuel actions) tt env0 tt env n ->
        (n < fuel)%nat ->
        descends fuel actions env action env1 ->
        (len (GetValidChildren action (ctx env1)) > 0)%Z ->
        nested fuel (GetValidChildren action (ctx env1)) env1
        = (Return nav (Some e), env2) ->
        QuitProgram (ctx env2) = false ->
        RunMenuActions fuel actions env0 = (Return NEXT (Some e), env2))
  /\ (forall fuel actions env0 n env msg env1,
        QuitProgram (ctx env0) = false ->
        iterates (menu_loop_body fuel actions) tt env0 tt env n ->
        (n < fuel)%nat ->
        GetChoiceInput (len actions) (emit (Printed (menu_prompt actions)) env)
        = (Val (Err (Errorf msg)), env1) ->
        RunMenuActions fuel actions env0 = (Return NEXT (Some (Errorf msg)), env1))
  /\ (forall fuel actions env nav e env',
        Forall quiet actions ->
        QuitProgram (ctx env) = false ->
        RunMenuActions fuel actions env = (Return nav (Some e), env') ->
        QuitProgram (ctx env') = false)
  /\ (forall fuel,
        reports (ActionRegisterUser_Action fuel) /\
        reports (ActionListUsers_Action fuel) /\
        reports (ActionListUserBandwidthSlots_Action fuel) /\
        reports (ActionAssignSlot_Action lib fuel) /\
        reports (ActionDeregisterUser_Action fuel) /\
        reports (ActionDeleteSlot_Action fuel) /\
        reports (ActionListAvailableSlots_Action lib fuel) /\
        reports (ActionListDevices_Action fuel) /\
        reports (ActionShowConnectedDevices_Action fuel) /\
        reports (ActionExportARPBindings_Action lib fuel) /\
        reports (ActionExportDhcpAddressReservations_Action lib fuel) /\
        reports (ActionRegisterDevice_Action lib fuel) /\
        reports (ActionDeregisterDevice_Action fuel) /\
        reports (ActionListBlockedDevices_Action fuel))
  /\ (forall fuel,
        reports_calls (ActionBlockDevice_Action lib fuel) /\
        reports_calls (ActionUnblockDevice_Action lib fuel))
  /\ (forall device deviceMap stat,
        renders (device_row device) /\ renders (blocked_row device) /\
        renders (stat_row deviceMap stat)).
Proof.
  split; [|split; [|split; [|split; [|split; [|split]]]]].
  - intros fuel actions env0 n env env1 action f nav e env2 Hq Hit Hn Hch Hf Hrun.
    apply (frame_returns _ _ _ _ _ _ _ _ Hq Hit Hn).
    unfold menu_loop_body.
    now rewrite (menu_body_behavior _ _ _ _ _ _ _ _ _ _ Hch Hf Hrun).
  - intros fuel actions env0 n env action env1 nav e env2 Hq Hit Hn Hd Hlen Hrun Hq2.
    apply (frame_returns _ _ _ _ _ _ _ _ Hq Hit Hn).
    rewrite (menu_body_descends _ _ _ _ _ Hd).
    exact (menu_descend_error _ _ _ _ _ _ Hlen Hrun Hq2).
  - intros fuel actions env0 n env msg env1 Hq Hit Hn Hread.
    apply (frame_returns _ _ _ _ _ _ _ _ Hq Hit Hn).
    now apply menu_body_read_error.
  - intros fuel actions env nav e env' Hquiet Hq Hrun.
    destruct (RunMenuActions_unwinds _ _ _ _ _ Hquiet Hrun Hq) as [H|[[=] _]].
    exact H.
  - intros fuel. repeat split.
    + apply reports_RegisterUser.
    + apply reports_ListUsers.
    + apply reports_ListUserBandwidthSlots.
    + apply reports_AssignSlot.
    + apply reports_DeregisterUser.
    + apply reports_DeleteSlot.
    + apply reports_ListAvailableSlots.
    + apply reports_ListDevices.
    + apply reports_ShowConnectedDevices.
    + apply reports_ExportARPBindings.
    + apply reports_ExportDhcpAddressReservations.
    + apply reports_RegisterDevice.
    + apply reports_DeregisterDevice.
    + apply reports_ListBlockedDevices.
  - intros fuel. split.
    + apply reports_calls_BlockDevice.
    + apply reports_calls_UnblockDevice.
  - intros device deviceMap stat. split; [|split].
    + apply renders_device_row.
    + apply renders_blocked_row.
    + apply renders_stat_row.
Qed.

(** * Sessions over the sample installation *)

(** C2 on the sample level: with an empty context only the child without
    required keys is offered; binding ["userId"] brings in the assign-slot
    node. *)
Lemma GetValidChildren_contract_witness :
  map Name (GetValidChildren Sample.level ∅) = ["Block device"] /\
  In (ActionAssignSlot Sample.lib)
    (GetValidChildren Sample.level (<["userId" := 7%Z]> ∅)).
Proof.
  split; [reflexivity|].
  apply (proj2 (proj2 (proj2 (proj2 (GetValidChildren_contract Sample.level ∅))))).
  - simpl. auto.
  - intros k' [<-|[]] Hne. congruence.
Defined.

(** C8 on the sample store (three users, page size five): [n] leaves the
    users screen on page 1 and the next iteration fetches nothing. *)
Lemma scroll_at_the_edge_witness :
  stays ListUsers_render ListUsers_prompt [] Sample.users_shown
    (Sample.session ∅ [Text "n"] []).
Proof.
  apply (proj1 (scroll_at_the_edge Sample.lib (Sample.session ∅ [Text "n"] []) [])).
  - reflexivity.
  - vm_compute. reflexivity.
Defined.

(** C6 on the sample store: row 9 of a three-row page of users. *)
Lemma invalid_row_selection_witness :
  stays ListUsers_render ListUsers_prompt
    [Printed ("invalid choice. try again" +:+ nl)] Sample.users_shown
    (Sample.session ∅ [Text "9"] []).
Proof.
  apply (proj1 (invalid_row_selection Sample.lib (Sample.session ∅ [Text "9"] []) "9" []
                  eq_refl ltac:(repeat split; discriminate))).
  vm_compute. right. reflexivity.
Defined.

(** C5 on the sample store: row 2 of the users page binds the identifier of
    that row. *)
Lemma valid_row_selection_witness :
  exists out env',
    ListUsers_prompt Sample.users_shown (Sample.session ∅ [Text "2"] []) = (out, env') /\
    out = Return NEXT None /\
    ctx env' = <["userId" := 2%Z]> ∅ /\
    calls (trace env') = [UserStore_Read 2].
Proof.
  destruct (proj1 (valid_row_selection (Sample.session ∅ [Text "2"] []) "2" [] 1 eq_refl)
              Sample.users_shown (Sample.user 2 "bob")
              ltac:(split; [reflexivity|vm_compute; split; [discriminate|reflexivity]])
              eq_refl)
    as (out & env' & E & H).
  exists out, env'. split; [exact E|].
  cbn in H. destruct H as (-> & Hc & Ht). rewrite Hc, Ht. repeat split.
Defined.

(** Scenario B of the specification on the sample store: after row 2 of the
    users page is selected, the frame descends into the children of the
    users node that ["userId"] satisfies, and its menu offers exactly
    those. *)
Example selected_user_offers_children :
  let r := RunMenuActions 3 [RootActionManageUsers Sample.lib]
             (Sample.session ∅ [Text "1"; Text "2"; Text "2"; Text "q"] []) in
  let offered :=
    GetValidChildren (ActionListUsers Sample.lib) (<["userId" := 2%Z]> ∅) in
  fst r = Return NEXT None /\
  map Name offered = ["List user bandwidth slots"; "Deregister user"; "List devices"] /\
  last (List.filter (fun ev => match ev with Printed _ => true | _ => false end)
          (trace (snd r)))
  = Some (Printed (menu_prompt offered)).
Proof. intros r offered. repeat split; vm_compute; reflexivity. Qed.

(** C7 on the sample store: user 1 owns exactly five slots, so page 2 of the
    slots is empty, and the user-slots screen ends there with [NEXT]. *)
Lemma empty_page_witness :
  exists env',
    ListUserBandwidthSlots_render 1 Sample.slots_next
      (Sample.session (Sample.selected 1) [] [])
    = (Return NEXT None, env') /\
    calls (trace env')
    = [BandwidthSlotStore_ReadManyByUserId 1 5 2; Router_GetBwControlEntriesByList []].
Proof.
  destruct (proj1 (proj2 (empty_page Sample.lib
                            (Sample.session (Sample.selected 1) [] [])))
              1%Z Sample.slots_next eq_refl eq_refl I)
    as (env' & E & T).
  exists env'. split; [exact E|]. rewrite T. reflexivity.
Defined.

(** C9 on the sample router: the assign-slot node of user 1, run as a
    whole. The operator answers [y], selects row 1 of the list and enters
    192.168.0.5, which lies below the range that starts at 192.168.0.100: the
    behavior returns [REPEAT] with a nil error after the message, with the
    three lines read, nothing written and the context as it was. *)
Lemma start_ip_below_range_witness :
  exists env',
    ActionAssignSlot_Action Sample.lib 4
      (Sample.session (Sample.selected 1)
         [Text "y"; Text "1"; Text "192.168.0.5"] [])
    = (Return REPEAT None, env') /\
    last (trace env') = Some (Printed "Given start IP is below range. Try again") /\
    reads (trace env') = 3%nat /\
    calls (trace env') = [Router_GetAvailableBandwidthSlots true] /\
    ctx env' = Sample.selected 1 /\ db env' = Sample.store /\
    router env' = Sample.the_router.
Proof.
  set (env0 := Sample.session (Sample.selected 1)
                 [Text "y"; Text "1"; Text "192.168.0.5"] []).
  set (envA := snd (loop 4 AssignSlot_bounds tt env0)).
  set (env := snd (AssignSlot_render Sample.lib true first_page envA)).
  destruct (start_ip_below_range Sample.lib 4 env0 1 true envA first_page envA 0
              Sample.ranges_shown env "1" "192.168.0.5" [] 0
              {| MinAddress := "192.168.0.100"; MaxAddress := "192.168.0.149" |}
              3232235525 3232235620)
    as (env' & E & _ & T & Hc & Hd & Hr & _).
  - vm_compute. reflexivity.
  - vm_compute. reflexivity.
  - apply iterates_here.
  - lia.
  - vm_compute. reflexivity.
  - reflexivity.
  - split; [reflexivity|vm_compute; split; [discriminate|reflexivity]].
  - reflexivity.
  - discriminate.
  - reflexivity.
  - reflexivity.
  - reflexivity.
  - reflexivity.
  - exists env'. split; [exact E|]. rewrite T, Hc, Hd, Hr. repeat split.
Defined.

(** C10 on the sample router: 300.1.1.1 is no IPv4 address; the behavior
    returns [REPEAT] with the error, and the frame that runs the assign-slot
    node returns [NEXT] with it, leaving the line that follows unread. After
    192.168.0.5, which is below the range, the loop of the frame has
    completed one iteration and is about to read the next line. *)
Lemma malformed_start_ip_witness :
  (exists env',
     AssignSlot_prompt Sample.lib 1 Sample.ranges_shown
       (Sample.session (Sample.selected 1) [Text "1"; Text "300.1.1.1"] [])
     = (Return REPEAT (Some (Errorf "invalid IPv4 address")), env'))
  /\ (exists env',
        RunMenuActions 4 [ActionAssignSlot Sample.lib]
          (Sample.session (Sample.selected 1)
             [Text "1"; Text "y"; Text "1"; Text "300.1.1.1"; Text "1"] [])
        = (Return NEXT (Some (Errorf "invalid IPv4 address")), env') /\
        stdin env' = [Text "1"])
  /\ (exists env',
        iterates (menu_loop_body 4 [ActionAssignSlot Sample.lib]) tt
          (Sample.session (Sample.selected 1)
             [Text "1"; Text "y"; Text "1"; Text "192.168.0.5"; Text "b"] [])
          tt env' 1 /\
        stdin env' = [Text "b"]).
Proof.
  split; [|split].
  - destruct (proj1 (malformed_start_ip Sample.lib) 1%Z Sample.ranges_shown
                (Sample.session (Sample.selected 1) [Text "1"; Text "300.1.1.1"] [])
                "1" "300.1.1.1" [] 0%Z
                {| MinAddress := "192.168.0.100"; MaxAddress := "192.168.0.149" |}
                eq_refl
                ltac:(split; [reflexivity|vm_compute; split; [discriminate|reflexivity]])
                eq_refl ltac:(discriminate) eq_refl)
      as (env' & E & _).
    exists env'. exact E.
  - eexists. split.
    + eapply (proj1 (proj2 (malformed_start_ip Sample.lib)))
        with (n := 0%nat) (action := ActionAssignSlot Sample.lib).
      * reflexivity.
      * apply iterates_here.
      * lia.
      * exists 0%Z. split; [vm_compute; reflexivity|].
        repeat split; try discriminate; reflexivity.
      * reflexivity.
      * vm_compute. reflexivity.
    + reflexivity.
  - eexists. split.
    + eapply (proj2 (proj2 (malformed_start_ip Sample.lib)))
        with (n := 0%nat) (action := ActionAssignSlot Sample.lib).
      * apply iterates_here.
      * exists 0%Z. split; [vm_compute; reflexivity|].
        repeat split; try discriminate; reflexivity.
      * reflexivity.
      * vm_compute. reflexivity.
    + reflexivity.
Defined.

(** C4 on the sample store: user 2 owns two slots and one device, and the
    delete of the device fails. The slots are gone, the user record and the
    binding of ["userId"] are still there. *)
Lemma deregister_user_witness :
  exists out env',
    ActionDeregisterUser_Action 1
      (Sample.session (Sample.selected 2) [] [None; Some "device delete failed"])
    = (out, env') /\
    out = Return NEXT (Some (Errorf "device delete failed")) /\
    map Slot_UserId (BandwidthSlotStore (db env')) = [1; 1; 1; 1; 1]%Z /\
    UserStore (db env') = UserStore Sample.store /\
    ctx env' !! "userId" = Some 2%Z.
Proof.
  destruct (deregister_user 1
              (Sample.session (Sample.selected 2) [] [None; Some "device delete failed"])
              2%Z ltac:(vm_compute; reflexivity))
    as (out & env' & E & H).
  exists out, env'. split; [exact E|].
  cbn in H. destruct H as (-> & _ & Hs & _ & Hu & Hc).
  rewrite Hs, Hu, Hc. repeat split.
Defined.


(** C3 on the sample store: the failed delete of the devices of user 2 ends
    the frame that runs the deregister-user node; a failed fetch in the users
    screen ends the frame of the users menu and the frame above it; a failed
    read of the menu choice ends the frame. *)
Lemma errors_propagate_witness :
  (exists env',
     RunMenuActions 2 [ActionDeregisterUser]
       (Sample.session (Sample.selected 2) [Text "1"; Text "1"]
          [None; Some "device delete failed"])
     = (Return NEXT (Some (Errorf "device delete failed")), env') /\
     stdin env' = [Text "1"])
  /\ (exists env',
        RunMenuActions 3 [RootActionManageUsers Sample.lib]
          (Sample.session ∅ [Text "1"; Text "2"; Text "1"] [Some "db down"])
        = (Return NEXT (Some (Errorf "db down")), env') /\
        stdin env' = [Text "1"])
  /\ (exists env',
        RunMenuActions 1 [ActionQuit] (Sample.session ∅ [Broken "tty gone"] [])
        = (Return NEXT (Some (Errorf "tty gone")), env')).
Proof.
  split; [|split].
  - eexists. split.
    + eapply (proj1 (errors_propagate Sample.lib))
        with (n := 0%nat) (action := ActionDeregisterUser).
      * reflexivity.
      * apply iterates_here.
      * lia.
      * exists 0%Z. split; [vm_compute; reflexivity|].
        repeat split; try discriminate; reflexivity.
      * reflexivity.
      * vm_compute. reflexivity.
    + reflexivity.
  - eexists. split.
    + eapply (proj1 (proj2 (errors_propagate Sample.lib)))
        with (n := 0%nat) (action := RootActionManageUsers Sample.lib).
      * reflexivity.
      * apply iterates_here.
      * lia.
      * eexists. split.
        -- exists 0%Z. split; [vm_compute; reflexivity|].
           repeat split; try discriminate; reflexivity.
        -- left. split; reflexivity.
      * vm_compute. reflexivity.
      * vm_compute. reflexivity.
      * vm_compute. reflexivity.
    + reflexivity.
  - eexists.
    eapply (proj1 (proj2 (proj2 (errors_propagate Sample.lib)))) with (n := 0%nat).
    + reflexivity.
    + apply iterates_here.
    + lia.
    + vm_compute. reflexivity.
Defined.

(** * Where the specification and the code part *)

(** C3 as stated: a store read that fails is not fatal when it is the
    owner lookup of a device row. In the devices screen of the sample store
    the lookup of the owner of the first device fails; the row is rendered
    with the alias alone, the screen goes on to its prompt, and both the
    behavior and the frame that ran it return with a nil error. *)
Lemma owner_lookup_failure_is_absorbed :
  let schedule := [None; Some "user table locked"] in
  (let r := ActionListDevices_Action 2 (Sample.session ∅ [Text "q"] schedule) in
   fst r = Return NEXT None /\
   calls (trace (snd r))
   = [DeviceStore_ReadMany 5 1; Device_GetUser 1; Device_GetUser 2;
      PrintTable_call [["AA:BB:CC:00:00:01"; "laptop"];
                       ["AA:BB:CC:00:00:02"; "phone" +:+ tab +:+ tab +:+ "bob"]]] /\
   List.filter (fun ev => match ev with Failed _ _ => true | _ => false end)
     (trace (snd r))
   = [Failed (Device_GetUser 1) (Errorf "user table locked")])
  /\ (let r := RunMenuActions 3 [ActionListDevices]
                 (Sample.session ∅ [Text "1"; Text "q"; Text "b"] schedule) in
      fst r = Return NEXT None /\
      In (Failed (Device_GetUser 1) (Errorf "user table locked")) (trace (snd r)) /\
      stdin (snd r) = []).
Proof.
  intros schedule.
  split; intros r; (split; [vm_compute; reflexivity|]); split;
    try (vm_compute; reflexivity).
  vm_compute. auto 20.
Qed.

(** The terminal read of the block-device behavior, of which C3 as amended
    says nothing: a failed read is not returned (lines 962-965; lines 981-984
    in unblock-device), where every other read of a behavior is. The
    behavior returns [NEXT] with a nil error, and the frame that ran it goes
    on to prompt again. *)
Lemma block_device_drops_read_error :
  (exists env',
     ActionBlockDevice_Action Sample.lib 1 (Sample.session ∅ [Broken "read failed"] [])
     = (Return NEXT None, env') /\
     trace env' = [Printed "Enter devic mac address: "; Read;
                   ReadFailed (Errorf "read failed")])
  /\ (exists env',
        RunMenuActions 3 [ActionBlockDevice Sample.lib]
          (Sample.session ∅ [Text "1"; Broken "read failed"; Text "b"] [])
        = (Return NEXT None, env') /\
        fatal (trace env') = [Errorf "read failed"] /\
        reads (trace env') = 3%nat).
Proof.
  split; eexists; (split; [vm_compute; reflexivity|]); repeat split.
Qed.

(** C5 as stated: in the devices screen row 2 is bound and [NEXT] is
    returned with no read of the device in between: nothing follows the read
    of the row number, and the only calls are the fetch of the page, the
    owner lookups of its rows and the table. In the assign-slot screen a
    valid row binds no key at all. *)
Lemma device_selected_without_read :
  (let r := ActionListDevices_Action 2 (Sample.session ∅ [Text "2"] []) in
   fst r = Return NEXT None /\
   ctx (snd r) !! "deviceId" = Some 2%Z /\
   last (trace (snd r)) = Some Read /\
   map (fun c => match c with DeviceStore_Read _ => true | _ => false end)
     (calls (trace (snd r)))
   = [false; false; false; false])
  /\ (let r := ActionAssignSlot_Action Sample.lib 2
                 (Sample.session (Sample.selected 1)
                    [Text "y"; Text "1"; Text ""; Text "3"; Text ""; Text ""] []) in
      fst r = Return NEXT None /\ ctx (snd r) = Sample.selected 1).
Proof.
  split; intros r; repeat split; vm_compute; reflexivity.
Qed.

(** C6 as stated: in the assign-slot screen row 7 of a two-row page is
    returned as an error. *)
Lemma assign_slot_invalid_row_is_an_error :
  let r := ActionAssignSlot_Action Sample.lib 2
             (Sample.session (Sample.selected 1) [Text "n"; Text "7"] []) in
  invalid_row "7" 2 /\ row_token "7" /\
  fst r = Return NEXT (Some (Errorf "invalid choice")).
Proof.
  intros r. split; [vm_compute; right; reflexivity|].
  split; [repeat split; discriminate|]. vm_compute. reflexivity.
Qed.

(** C7 as stated: on page 2 the user-slots screen does not stay at its
    prompt. User 1 owns exactly five slots; after [n] the fetch of page 2 is
    empty and the screen returns [NEXT], leaving the next line unread. *)
Lemma user_slots_end_on_empty_later_page :
  let r := ActionListUserBandwidthSlots_Action 3
             (Sample.session (Sample.selected 1) [Text "n"; Text "1"] []) in
  fst r = Return NEXT None /\
  stdin (snd r) = [Text "1"] /\
  last (trace (snd r)) = Some (Printed ("no slots found" +:+ nl)) /\
  fst (ListUserBandwidthSlots_render 1 Sample.slots_next
         (Sample.session (Sample.selected 1) [Text "1"] []))
  = Return NEXT None.
Proof.
  intros r. repeat split; vm_compute; reflexivity.
Qed.
